(** * OVS internal-port network strategy (network/ovs.go)

    A shallow embedding of the OVS strategy of libcontainer's network
    package: the local table cache fed by OVSDB update notifications, the
    three-operation transaction that adds an internal port to a bridge
    together with the validation of its reply, and the two device
    sequences [Ovs.Create] and [Ovs.Initialize].

    Go maps are finite maps ([gmap]); a [for k, v := range m] loop is a
    [map_fold]; package-level variables, standard output, the log of
    interface operations and the [*NetworkState] argument live in an
    explicit store threaded through a small state monad whose results are
    either a returned value or a Go run-time panic. *)

From Stdlib Require Import Ascii.
From stdpp Require Import gmap strings list fin_maps pretty.

Open Scope string_scope.
Open Scope list_scope.

(** ** libovsdb data, as far as ovs.go touches it *)

(** Go's [error] values are compared against [nil] only; their text is what
    [fmt.Errorf] builds. *)
Definition error := string.

(** Values stored in the columns of a row: strings, [libovsdb.UUID]
    references and [libovsdb.OvsSet]s of those. *)
Inductive Atom :=
  | AString (s : string)
  | AUUID (GoUuid : string).

Inductive Value :=
  | VAtom (a : Atom)
  | VSet (GoSet : list Atom).

#[global] Instance Atom_eq_dec : EqDecision Atom.
Proof. solve_decision. Defined.

#[global] Instance Value_eq_dec : EqDecision Value.
Proof. solve_decision. Defined.

(** [libovsdb.Row]: [struct { Fields map[string]interface{} }].  A Go map
    value is either [nil] ([None]) or an allocated, possibly empty, map. *)
Record Row := mkRow { Fields : option (gmap string Value) }.

#[global] Instance Row_eq_dec : EqDecision Row.
Proof. solve_decision. Defined.

(** [libovsdb.RowUpdate], [libovsdb.TableUpdate], [libovsdb.TableUpdates]. *)
Record RowUpdate := mkRowUpdate { Old : Row; New : Row }.

Record TableUpdate := mkTableUpdate { Rows : gmap string RowUpdate }.

Record TableUpdates := mkTableUpdates { Updates : gmap string TableUpdate }.

(** [var cache map[string]map[string]libovsdb.Row] *)
Abbreviation Cache := (gmap string (gmap string Row)).

Module TableCache.

(** [empty := libovsdb.Row{}], the zero value of [Row]. *)
Definition empty : Row := mkRow None.

(** Body of the inner loop of [populateCache], for one [uuid, row] pair of
    [tableUpdate.Rows].  [cache[table]] exists when it runs, and
    [cache[table][uuid] = v] and [delete(cache[table], uuid)] update that
    sub-map in place. *)
Definition populateRow (table uuid : string) (row : RowUpdate) (cache : Cache) : Cache :=
  if negb (bool_decide (New row = empty)) then
    alter (insert uuid (New row)) table cache
  else
    alter (delete uuid) table cache.

(** Body of the outer loop, for one [table, tableUpdate] pair. *)
Definition populateTable (table : string) (tableUpdate : TableUpdate) (cache : Cache) : Cache :=
  let cache :=
    match cache !! table with
    | Some _ => cache
    | None => <[table := ∅]> cache
    end in
  map_fold (populateRow table) cache (Rows tableUpdate).

(** [func populateCache(updates libovsdb.TableUpdates)], acting on the
    package-level [cache]. *)
Definition populateCache (updates : TableUpdates) (cache : Cache) : Cache :=
  map_fold populateTable cache (Updates updates).

(** The row stored for [uuid] in [table], through both levels of the map:
    [cache[table][uuid]] with Go's comma-ok reading. *)
Definition row_at (cache : Cache) (table uuid : string) : option Row :=
  cache !! table ≫= (.!! uuid).

(** What one row update leaves at its row identifier. *)
Definition row_result (row : RowUpdate) : option Row :=
  if bool_decide (New row = empty) then None else Some (New row).


(** Closed forms of the two loops, used to reason about them: the rows of
    one table after the inner loop, and the cache after the outer loop. *)
Definition rows_after (rows : gmap string RowUpdate) (tbl : gmap string Row) :
    gmap string Row :=
  merge (λ (r : option RowUpdate) (old : option Row),
           match r with Some r => row_result r | None => old end) rows tbl.

Definition cache_after (updates : TableUpdates) (cache : Cache) : Cache :=
  merge (λ (t : option TableUpdate) (old : option (gmap string Row)),
           match t with
           | Some t => Some (rows_after (Rows t) (default ∅ old))
           | None => old
           end) (Updates updates) cache.

End TableCache.

(** ** Transactions *)

(** [libovsdb.NewMutation] and [libovsdb.NewCondition] build the triples
    [column, mutator, value] and [column, function, value]. *)
Definition Mutation : Type := string * string * Value.
Definition Condition : Type := string * string * Value.

Definition NewMutation (column mutator : string) (value : Value) : Mutation :=
  (column, mutator, value).
Definition NewCondition (column function : string) (value : Value) : Condition :=
  (column, function, value).

(** [libovsdb.NewOvsSet] applied to a slice of UUIDs. *)
Definition NewOvsSet (uuids : list Atom) : Value := VSet uuids.

(** [libovsdb.Operation], with the fields ovs.go fills in. *)
Record Operation := mkOperation {
  Op : string;
  Table : string;
  OpRow : gmap string Value;
  UUIDName : string;
  Mutations : list Mutation;
  Where : list Condition
}.

(** [libovsdb.OperationResult]: per-operation affected-row count, error
    and details strings and, for inserts, the identifier of the new row. *)
Record OperationResult := mkOperationResult {
  Count : Z;
  Error : string;
  Details : string;
  UUID : string
}.

(** The connection returned by [libovsdb.Connect]: what the server answers
    to [Transact] and to [MonitorAll] ([nil] when monitoring fails). *)
Record OvsdbClient := mkOvsdbClient {
  Transact : string → list Operation → list OperationResult;
  MonitorAll : string → option TableUpdates
}.

(** ** Interface operations of the network package *)

(** One constructor per helper of the package that ovs.go calls. *)
Inductive DevOp :=
  | DevSetMtu (name : string) (mtu : Z)
  | DevInterfaceUp (name : string)
  | DevInterfaceDown (name : string)
  | DevSetInterfaceInNamespacePid (name : string) (nspid : Z)
  | DevChangeInterfaceName (name newName : string)
  | DevSetInterfaceMac (name macaddr : string)
  | DevSetInterfaceIp (name rawIp : string)
  | DevSetDefaultGateway (ip ifaceName : string).

#[global] Instance DevOp_eq_dec : EqDecision DevOp.
Proof. solve_decision. Defined.

(** [Network] and [NetworkState], the fields the OVS strategy reads and
    writes. *)
Record Network := mkNetwork {
  Bridge : string;
  VethPrefix : string;
  Mtu : Z;
  MacAddress : string;
  Address : string;
  IPv6Address : string;
  Gateway : string;
  IPv6Gateway : string
}.

Record NetworkState := mkNetworkState { OvsPort : string }.

(** Lines written with [fmt.Println] by [addInternalPort]. *)
Inductive Output :=
  | OutTooFewReplies
  | OutOperationError (err details : string) (op : Operation)
  | OutError (err : string)
  | OutPortAdditionSuccessful (GoUuid : string).

(** ** The outside world and the store *)

(** Everything the strategy obtains from outside the package. *)
Record Env := mkEnv {
  (** [const defaultDevice] of the network package *)
  defaultDevice : string;
  (** the random source read by [utils.GenerateRandomName]: a read error,
      or the characters it yields *)
  rand_Reader : error + (nat → Ascii.ascii);
  (** [libovsdb.Connect("", 0)] *)
  libovsdb_Connect : OvsdbClient + error;
  (** [exec.Command(name, args...).Run()] *)
  exec_Run : list string → option error;
  (** the outcome of an interface operation, given those issued before *)
  netlink : list DevOp → DevOp → option error
}.

Record Store := mkStore {
  cache : Cache;
  stdout : list Output;
  devlog : list DevOp;
  networkState : NetworkState
}.

(** A Go call either returns or panics. *)
Inductive Res (A : Type) :=
  | Ret (a : A)
  | Panic (msg : string).
Arguments Ret {A} a.
Arguments Panic {A} msg.

Definition M (A : Type) : Type := Store → Res A * Store.

#[global] Instance M_ret : MRet M := λ A a s, (Ret a, s).

#[global] Instance M_bind : MBind M := λ A B f m s,
  match m s with
  | (Ret a, s') => f a s'
  | (Panic msg, s') => (Panic msg, s')
  end.

Definition panic {A} (msg : string) : M A := λ s, (Panic msg, s).

(** The store after more lines were written to standard output. *)
Definition printed (s : Store) (out : list Output) : Store :=
  mkStore (cache s) (stdout s ++ out) (devlog s) (networkState s).

Definition Println (o : Output) : M unit := λ s, (Ret tt, printed s [o]).

Definition set_cache (c : Cache) : M unit := λ s,
  (Ret tt, mkStore c (stdout s) (devlog s) (networkState s)).

Definition get_cache : M Cache := λ s, (Ret (cache s), s).

Definition get_networkState : M NetworkState := λ s, (Ret (networkState s), s).

Definition set_OvsPort (name : string) : M unit := λ s,
  (Ret tt, mkStore (cache s) (stdout s) (devlog s) (mkNetworkState name)).

(** [time.Sleep]: real time is not part of the store. *)
Definition Sleep (seconds : Z) : M unit := mret tt.

(** ** Helpers of the repository outside ovs.go *)

(** Modelled from the spec: [utils.GenerateRandomName], whose source is not
    part of the files at hand.  The name is the prefix followed by a random
    suffix of the requested length; a failing random source yields the
    empty name and the error. *)
Definition GenerateRandomName (rand : error + (nat → Ascii.ascii))
    (prefix : string) (size : nat) : string * option error :=
  match rand with
  | inl err => ("", Some err)
  | inr gen => (prefix +:+ String.string_of_list_ascii (gen <$> seq 0 size), None)
  end.

Section Strategy.
Context (env : Env).

(** An interface operation: its outcome is the environment's, and it is
    appended to the log whether it succeeds or not. *)
Definition netlink_call (op : DevOp) : M (option error) := λ s,
  (Ret (netlink env (devlog s) op),
   mkStore (cache s) (stdout s) (devlog s ++ [op]) (networkState s)).

Definition SetMtu (name : string) (mtu : Z) := netlink_call (DevSetMtu name mtu).
Definition InterfaceUp (name : string) := netlink_call (DevInterfaceUp name).
Definition InterfaceDown (name : string) := netlink_call (DevInterfaceDown name).
Definition SetInterfaceInNamespacePid (name : string) (nspid : Z) :=
  netlink_call (DevSetInterfaceInNamespacePid name nspid).
Definition ChangeInterfaceName (name newName : string) :=
  netlink_call (DevChangeInterfaceName name newName).
Definition SetInterfaceMac (name macaddr : string) :=
  netlink_call (DevSetInterfaceMac name macaddr).
Definition SetInterfaceIp (name rawIp : string) :=
  netlink_call (DevSetInterfaceIp name rawIp).
Definition SetDefaultGateway (ip ifaceName : string) :=
  netlink_call (DevSetDefaultGateway ip ifaceName).

(** ** ovs.go *)

(** [func populateCache], on the store. *)
Definition populateCache (updates : TableUpdates) : M unit :=
  c ← get_cache; set_cache (TableCache.populateCache updates c).

(** [func ovs_connect()], returning the client and an error.  The error of
    [MonitorAll] is dropped and its result dereferenced.  The [update]
    channel is made and never used; [ovs.Register(notifier)] registers the
    notifier for later notifications, which are outside this model. *)
Definition ovs_connect : M (option OvsdbClient * option error) :=
  set_cache ∅;;
  match libovsdb_Connect env with
  | inr err => mret (None, Some err)
  | inl ovs =>
      match MonitorAll ovs "Open_vSwitch" with
      | None => panic "invalid memory address or nil pointer dereference"
      | Some initial => populateCache initial;; mret (Some ovs, None)
      end
  end.

(** The three operations built by [addInternalPort]. *)
Definition insertIntfOp (portName : string) : Operation :=
  let intf : gmap string Value :=
    <["type" := VAtom (AString "internal")]>
      (<["name" := VAtom (AString portName)]> ∅) in
  mkOperation "insert" "Interface" intf "intf" [] [].

Definition insertPortOp (portName : string) : Operation :=
  let port : gmap string Value :=
    <["interfaces" := VAtom (AUUID "intf")]>
      (<["name" := VAtom (AString portName)]> ∅) in
  mkOperation "insert" "Port" port "port" [] [].

Definition mutateOp (bridgeName : string) : Operation :=
  let mutateSet := NewOvsSet [AUUID "port"] in
  let mutation := NewMutation "ports" "insert" mutateSet in
  let condition := NewCondition "name" "==" (VAtom (AString bridgeName)) in
  mkOperation "mutate" "Bridge" ∅ "" [mutation] [condition].

(** [for i, o := range reply { ... }] of [addInternalPort], from index [i]
    on, with the current value of [ok]. *)
Fixpoint range_reply (operations : list Operation) (i : nat)
    (reply : list OperationResult) (ok : bool) : M bool :=
  match reply with
  | [] => mret ok
  | o :: reply' =>
      ok' ←
        (if negb (bool_decide (Error o = "")) && bool_decide (i < length operations) then
           match operations !! i with
           | Some op => Println (OutOperationError (Error o) (Details o) op);; mret false
           | None => panic "index out of range"
           end
         else if negb (bool_decide (Error o = "")) then
           Println (OutError (Error o));; mret false
         else mret ok);
      range_reply operations (S i) reply' ok'
  end.

(** [func addInternalPort(ovs, bridgeName, portName)]: it returns nothing. *)
Definition addInternalPort (ovs : OvsdbClient) (bridgeName portName : string) : M unit :=
  let operations := [insertIntfOp portName; insertPortOp portName; mutateOp bridgeName] in
  let reply := Transact ovs "Open_vSwitch" operations in
  (if bool_decide (length reply < length operations)
   then Println OutTooFewReplies else mret tt);;
  range_reply operations 0 reply true ≫= λ ok : bool,
  if ok then
    match reply !! 1%nat with
    | Some r => Println (OutPortAdditionSuccessful (UUID r))
    | None => panic "index out of range"
    end
  else mret tt.

(** [func createOvsInternalPort(prefix, bridge) (name1 string, err error)]
    of ovs.go.  [ovs, err := ovs_connect()] assigns the named result. *)
Definition createOvsInternalPort (prefix bridge : string) : M (string * option error) :=
  let '(name1, err) := GenerateRandomName (rand_Reader env) prefix 7 in
  if bool_decide (err ≠ None) then mret (name1, err)
  else
    '(ovs, err) ← ovs_connect;
    if bool_decide (err = None) then
      match ovs with
      | Some ovs => addInternalPort ovs bridge name1;; mret (name1, err)
      | None => panic "invalid memory address or nil pointer dereference"
      end
    else mret (name1, err).

(** The Go idiom [if err := c; err != nil { return wrap(err) }], followed by
    the rest [k] of the function. *)
Definition on_error (c : M (option error)) (wrap : error → error)
    (k : M (option error)) : M (option error) :=
  c ≫= λ err : option error,
  match err with
  | Some e => mret (Some (wrap e))
  | None => k
  end.

(** [if cond { body }], where the body may return from the function. *)
Definition when (cond : bool) (body : M (option error) → M (option error))
    (k : M (option error)) : M (option error) :=
  if cond then body k else k.

(** [func (v *Ovs) Create(n *Network, nspid int, networkState *NetworkState) error]
    of ovs.go. *)
Definition Create (n : Network) (nspid : Z) : M (option error) :=
  let bridge := Bridge n in
  let prefix := VethPrefix n in
  if bool_decide (bridge = "") then mret (Some "bridge is not specified")
  else if bool_decide (prefix = "") then mret (Some "veth prefix is not specified")
  else
    createOvsInternalPort prefix bridge ≫= λ '(name, err),
    if bool_decide (err ≠ None) then mret err
    else
      Sleep 1;;
      on_error (SetMtu name (Mtu n)) id (
      on_error (InterfaceUp name) id (
      on_error (SetInterfaceInNamespacePid name nspid) id (
      set_OvsPort name;;
      mret None))).

(** [func (v *Ovs) Initialize(config *Network, networkState *NetworkState) error],
    the same text in both files. *)
Definition Initialize (config : Network) : M (option error) :=
  let defaultDevice := defaultDevice env in
  get_networkState ≫= λ networkState : NetworkState,
  let ovsPort := OvsPort networkState in
  if bool_decide (ovsPort = "") then mret (Some "ovsPort is not specified")
  else
    on_error (InterfaceDown ovsPort)
      (λ err, "interface down " +:+ ovsPort +:+ " " +:+ err) (
    on_error (ChangeInterfaceName ovsPort defaultDevice)
      (λ err, "change " +:+ ovsPort +:+ " to " +:+ defaultDevice +:+ " " +:+ err) (
    when (negb (bool_decide (MacAddress config = "")))
      (on_error (SetInterfaceMac defaultDevice (MacAddress config))
         (λ err, "set " +:+ defaultDevice +:+ " mac " +:+ err)) (
    on_error (SetInterfaceIp defaultDevice (Address config))
      (λ err, "set " +:+ defaultDevice +:+ " ip " +:+ err) (
    when (negb (bool_decide (IPv6Address config = "")))
      (on_error (SetInterfaceIp defaultDevice (IPv6Address config))
         (λ err, "set " +:+ defaultDevice +:+ " ipv6 " +:+ err)) (
    on_error (SetMtu defaultDevice (Mtu config))
      (λ err, "set " +:+ defaultDevice +:+ " mtu to " +:+ pretty (Mtu config)
                +:+ " " +:+ err) (
    on_error (InterfaceUp defaultDevice)
      (λ err, defaultDevice +:+ " up " +:+ err) (
    when (negb (bool_decide (Gateway config = "")))
      (on_error (SetDefaultGateway (Gateway config) defaultDevice)
         (λ err, "set gateway to " +:+ Gateway config +:+ " on device "
                   +:+ defaultDevice +:+ " failed with " +:+ err)) (
    when (negb (bool_decide (IPv6Gateway config = "")))
      (on_error (SetDefaultGateway (IPv6Gateway config) defaultDevice)
         (λ err, "set gateway for ipv6 to " +:+ IPv6Gateway config +:+ " on device "
                   +:+ defaultDevice +:+ " failed with " +:+ err)) (
    mret None))))))))).

(** ** The variant that shells out to ovs-vsctl *)

(** [func createOvsInternalPort] of the second file.  The body of its
    [for i := 0; i < 10; i++] loop leaves the loop on every path (two
    returns and a final [break]), so the loop runs its first iteration
    only. *)
Definition createOvsInternalPort_vsctl (prefix bridge : string) : M (string * option error) :=
  if bool_decide (0 < 10)%Z then
    let '(name1, err) := GenerateRandomName (rand_Reader env) prefix 7 in
    if bool_decide (err ≠ None) then mret (name1, err)
    else
      let cmd := ["ovs-vsctl"; "add-port"; bridge; name1; "--"; "set"; "Interface";
                  name1; "type=internal"] in
      match exec_Run env cmd with
      | Some err =>
          mret (name1, Some ("create ovs port " +:+ name1 +:+ " on " +:+ bridge
                               +:+ " failed with " +:+ err))
      | None => mret (name1, None)
      end
  else mret ("", None).

(** [func (v *Ovs) Create] of the second file: as in ovs.go, without the
    sleep. *)
Definition Create_vsctl (n : Network) (nspid : Z) : M (option error) :=
  let bridge := Bridge n in
  let prefix := VethPrefix n in
  if bool_decide (bridge = "") then mret (Some "bridge is not specified")
  else if bool_decide (prefix = "") then mret (Some "veth prefix is not specified")
  else
    createOvsInternalPort_vsctl prefix bridge ≫= λ '(name, err),
    if bool_decide (err ≠ None) then mret err
    else
      on_error (SetMtu name (Mtu n)) id (
      on_error (InterfaceUp name) id (
      on_error (SetInterfaceInNamespacePid name nspid) id (
      set_OvsPort name;;
      mret None))).

End Strategy.

(** ** Vocabulary of the specification *)

(** Interface operations run in order, each fatal on failure: the log
    after the run, and the wrapped error of the operation that failed. *)
Fixpoint fail_fast (env : Env) (log : list DevOp)
    (steps : list (DevOp * (error → error))) : list DevOp * option error :=
  match steps with
  | [] => (log, None)
  | (op, wrap) :: steps' =>
      match netlink env log op with
      | Some e => (log ++ [op], Some (wrap e))
      | None => fail_fast env (log ++ [op]) steps'
      end
  end.

(** The steps of namespace attachment, after the port was created. *)
Definition attach_steps (name : string) (mtu nspid : Z) : list (DevOp * (error → error)) :=
  [(DevSetMtu name mtu, id);
   (DevInterfaceUp name, id);
   (DevSetInterfaceInNamespacePid name nspid, id)].

(** The steps of namespace finalization, with the text of their errors:
    down, rename, MAC if configured, address, IPv6 address if configured,
    MTU, up, gateway if configured, IPv6 gateway if configured. *)
Definition finalize_steps (dev : string) (config : Network) (ovsPort : string) :
    list (DevOp * (error → error)) :=
  [(DevInterfaceDown ovsPort, λ err, "interface down " +:+ ovsPort +:+ " " +:+ err);
   (DevChangeInterfaceName ovsPort dev,
    λ err, "change " +:+ ovsPort +:+ " to " +:+ dev +:+ " " +:+ err)]
  ++ (if bool_decide (MacAddress config = "") then []
      else [(DevSetInterfaceMac dev (MacAddress config),
             λ err, "set " +:+ dev +:+ " mac " +:+ err)])
  ++ [(DevSetInterfaceIp dev (Address config), λ err, "set " +:+ dev +:+ " ip " +:+ err)]
  ++ (if bool_decide (IPv6Address config = "") then []
      else [(DevSetInterfaceIp dev (IPv6Address config),
             λ err, "set " +:+ dev +:+ " ipv6 " +:+ err)])
  ++ [(DevSetMtu dev (Mtu config),
       λ err, "set " +:+ dev +:+ " mtu to " +:+ pretty (Mtu config) +:+ " " +:+ err);
      (DevInterfaceUp dev, λ err, dev +:+ " up " +:+ err)]
  ++ (if bool_decide (Gateway config = "") then []
      else [(DevSetDefaultGateway (Gateway config) dev,
             λ err, "set gateway to " +:+ Gateway config +:+ " on device " +:+ dev
                      +:+ " failed with " +:+ err)])
  ++ (if bool_decide (IPv6Gateway config = "") then []
      else [(DevSetDefaultGateway (IPv6Gateway config) dev,
             λ err, "set gateway for ipv6 to " +:+ IPv6Gateway config +:+ " on device "
                      +:+ dev +:+ " failed with " +:+ err)]).

(** [contains needle hay]: the needle occurs in the text. *)
Fixpoint contains (needle hay : string) : bool :=
  String.prefix needle hay ||
  match hay with
  | EmptyString => false
  | String _ hay' => contains needle hay'
  end.


Definition step_device (op : DevOp) : string :=
  match op with
  | DevSetMtu name _ | DevInterfaceUp name | DevInterfaceDown name
  | DevSetInterfaceInNamespacePid name _ | DevChangeInterfaceName name _
  | DevSetInterfaceMac name _ | DevSetInterfaceIp name _ => name
  | DevSetDefaultGateway _ ifaceName => ifaceName
  end.


(** ** A sample world *)

(** A server that answers every transaction with [reply] and has nothing
    to monitor, a random source yielding [1a2b3c4...], an [ovs-vsctl] and
    interface operations that succeed. *)
Definition sample_client (reply : list OperationResult) : OvsdbClient :=
  mkOvsdbClient (λ _ _, reply) (λ _, Some (mkTableUpdates ∅)).

Definition sample_env (reply : list OperationResult) : Env :=
  mkEnv "eth0"
    (inr (λ i, nth i (String.list_ascii_of_string "1a2b3c4") "0"%char))
    (inl (sample_client reply))
    (λ _, None)
    (λ _ _, None).

Definition sample_store : Store := mkStore ∅ [] [] (mkNetworkState "").

Definition sample_config : Network :=
  mkNetwork "br0" "veth" 1500 "aa:bb:cc:dd:ee:ff" "10.0.0.5/24" "" "10.0.0.1" "".

Definition inserted (uuid : string) : OperationResult := mkOperationResult 1 "" "" uuid.

(** ** Further vocabulary *)

(** No row stored in the cache is the empty row. *)
Definition no_empty_row (cache : Cache) : Prop :=
  ∀ table uuid row,
    TableCache.row_at cache table uuid = Some row → row ≠ TableCache.empty.

(** An update with its old values replaced. *)
Definition replace_old (f : string → string → Row) (updates : TableUpdates) : TableUpdates :=
  mkTableUpdates
    (map_imap (λ table t,
       Some (mkTableUpdate
               (map_imap (λ uuid row, Some (mkRowUpdate (f table uuid) (New row))) (Rows t))))
       (Updates updates)).

(** Two updates that share no row of any table. *)
Definition row_disjoint (u1 u2 : TableUpdates) : Prop :=
  ∀ table t1 t2,
    Updates u1 !! table = Some t1 → Updates u2 !! table = Some t2 →
    Rows t1 ##ₘ Rows t2.

(** The lines that the loop over the reply prints: one for each entry with
    an error, telling the operation when the entry has one. *)
Fixpoint error_lines (operations : list Operation) (i : nat)
    (reply : list OperationResult) : list Output :=
  match reply with
  | [] => []
  | o :: reply' =>
      (if bool_decide (Error o = "") then []
       else [default (OutError (Error o))
               (OutOperationError (Error o) (Details o) <$> operations !! i)])
      ++ error_lines operations (S i) reply'
  end.

(** * Properties *)

(** Unfolding of the monad and of the store accessors. *)
Ltac run :=
  unfold mbind, M_bind, mret, M_ret, panic, Println, set_cache, get_cache,
    get_networkState, set_OvsPort, Sleep in *; simpl in *.

(** ** The table cache *)

Module TableCacheFacts.
Import TableCache.

Lemma lookup_rows_after rows tbl uuid :
  rows_after rows tbl !! uuid =
    match rows !! uuid with Some r => row_result r | None => tbl !! uuid end.
Proof. unfold rows_after. by rewrite lookup_merge; destruct (rows !! uuid), (tbl !! uuid). Qed.

Lemma lookup_cache_after updates cache table :
  cache_after updates cache !! table =
    match Updates updates !! table with
    | Some t => Some (rows_after (Rows t) (default ∅ (cache !! table)))
    | None => cache !! table
    end.
Proof.
  unfold cache_after. rewrite lookup_merge.
  by destruct (Updates updates !! table), (cache !! table).
Qed.

Lemma rows_after_empty tbl : rows_after ∅ tbl = tbl.
Proof. apply map_eq; intros u. by rewrite lookup_rows_after, lookup_empty. Qed.

Lemma populateRow_rows_after table uuid row rows tbl (cache : Cache) :
  rows !! uuid = None →
  populateRow table uuid row (<[table := rows_after rows tbl]> cache) =
    <[table := rows_after (<[uuid := row]> rows) tbl]> cache.
Proof.
  intros Hfresh. unfold populateRow.
  destruct (bool_decide (New row = empty)) eqn:Hnew; simpl;
    rewrite alter_insert_eq; f_equal; apply map_eq; intros u;
    rewrite !lookup_rows_after;
    destruct (decide (u = uuid)) as [->|Hne].
  - by rewrite lookup_delete_eq, lookup_insert_eq; unfold row_result; rewrite Hnew.
  - by rewrite lookup_delete_ne, lookup_insert_ne, lookup_rows_after.
  - by rewrite !lookup_insert_eq; unfold row_result; rewrite Hnew.
  - by rewrite !lookup_insert_ne, lookup_rows_after.
Qed.

(** The inner loop, started on a cache that has the table. *)
Lemma inner_loop table rows tbl (cache : Cache) :
  cache !! table = Some tbl →
  map_fold (populateRow table) cache rows = <[table := rows_after rows tbl]> cache.
Proof.
  intros Htbl.
  apply (map_fold_weak_ind
           (λ r rows, r = <[table := rows_after rows tbl]> cache)).
  - by rewrite rows_after_empty, insert_id.
  - intros uuid row m r Hfresh ->. by apply populateRow_rows_after.
Qed.

Lemma populateTable_eq table t (cache : Cache) :
  populateTable table t cache =
    <[table := rows_after (Rows t) (default ∅ (cache !! table))]> cache.
Proof.
  unfold populateTable. destruct (cache !! table) as [tbl|] eqn:Htbl; simpl.
  - by apply inner_loop.
  - rewrite (inner_loop table (Rows t) ∅); [|by rewrite lookup_insert_eq].
    by rewrite insert_insert_eq.
Qed.

(** The outer loop computes [cache_after]. *)
Lemma populateCache_eq updates cache :
  populateCache updates cache = cache_after updates cache.
Proof.
  unfold populateCache. destruct updates as [upd]; simpl.
  apply (map_fold_weak_ind
           (λ r upd, r = cache_after (mkTableUpdates upd) cache)).
  - apply map_eq; intros t. by rewrite lookup_cache_after; simpl; rewrite lookup_empty.
  - intros table t m r Hfresh ->. rewrite populateTable_eq.
    apply map_eq; intros t'. rewrite !lookup_cache_after; simpl.
    destruct (decide (t' = table)) as [->|Hne].
    + rewrite !lookup_insert_eq. simpl. by rewrite Hfresh.
    + rewrite !lookup_insert_ne by done. by rewrite lookup_cache_after.
Qed.


Lemma rows_after_idem rows tbl :
  rows_after rows (rows_after rows tbl) = rows_after rows tbl.
Proof.
  apply map_eq; intros u. rewrite !lookup_rows_after. by destruct (rows !! u).
Qed.


Lemma row_at_after updates cache table uuid :
  row_at (populateCache updates cache) table uuid =
    match Updates updates !! table ≫= (λ t, Rows t !! uuid) with
    | Some row => row_result row
    | None => row_at cache table uuid
    end.
Proof.
  unfold row_at. rewrite populateCache_eq, lookup_cache_after.
  destruct (Updates updates !! table) as [t|]; simpl; [|done].
  rewrite lookup_rows_after. destruct (Rows t !! uuid); [done|].
  by destruct (cache !! table).
Qed.

(** C4, as stated, fails: a new value that is present and has no field, its
    field map allocated and empty, is stored, not left absent. *)
Lemma fieldless_row_is_stored :
  let row := mkRowUpdate empty (mkRow (Some ∅)) in
  let updates := mkTableUpdates {[ "Port" := mkTableUpdate {[ "u1" := row ]} ]} in
  Fields (New row) = Some ∅ ∧
  row_at (populateCache updates ∅) "Port" "u1" = Some (mkRow (Some ∅)).
Proof.
  intros row updates. split; [done|]. rewrite row_at_after.
  unfold updates; simpl. rewrite lookup_singleton_eq; simpl.
  by rewrite lookup_singleton_eq.
Qed.

(** C4, amended: after [populateCache], every table of the update has a
    sub-map (possibly empty); in it a row of the update holds its new value
    when that value differs from the zero row [libovsdb.Row{}], which has
    no field map at all, and is absent otherwise; so a new value with a
    field map is stored even when the map holds no field.  The other rows
    are those the cache had, and a table the update does not mention is as
    it was. *)
Theorem populateCache_spec (updates : TableUpdates) (cache : Cache) (table : string) :
  match Updates updates !! table with
  | Some t =>
      ∃ tbl, populateCache updates cache !! table = Some tbl ∧
        (∀ uuid,
           tbl !! uuid =
             match Rows t !! uuid with
             | Some row => if bool_decide (New row = mkRow None) then None else Some (New row)
             | None => row_at cache table uuid
             end) ∧
        (∀ uuid row fields,
           Rows t !! uuid = Some row → Fields (New row) = Some fields →
           tbl !! uuid = Some (New row))
  | None => populateCache updates cache !! table = cache !! table
  end.
Proof.
  rewrite populateCache_eq, lookup_cache_after.
  destruct (Updates updates !! table) as [t|]; [|done].
  eexists; split; [done|].
  assert (∀ uuid,
            rows_after (Rows t) (default ∅ (cache !! table)) !! uuid =
              match Rows t !! uuid with
              | Some row =>
                  if bool_decide (New row = mkRow None) then None else Some (New row)
              | None => row_at cache table uuid
              end) as Hrows.
  { intros uuid. rewrite lookup_rows_after.
    destruct (Rows t !! uuid); [done|].
    unfold row_at. by destruct (cache !! table). }
  split; [exact Hrows|].
  intros uuid row fields Hrow Hfields. rewrite Hrows, Hrow.
  rewrite bool_decide_eq_false_2; [done|].
  intros Heq. rewrite Heq in Hfields. discriminate.
Qed.

Lemma populateCache_spec_witness :
  let row := mkRowUpdate empty (mkRow (Some ∅)) in
  let updates := mkTableUpdates {[ "Port" := mkTableUpdate {[ "u1" := row ]} ]} in
  Updates updates !! "Port" = Some (mkTableUpdate {[ "u1" := row ]}) ∧
  ∃ tbl, populateCache updates ∅ !! "Port" = Some tbl ∧
         tbl !! "u1" = Some (mkRow (Some ∅)).
Proof.
  intros row updates.
  assert (Updates updates !! "Port" = Some (mkTableUpdate {[ "u1" := row ]})) as Htable
    by (vm_compute; reflexivity).
  split; [exact Htable|].
  pose proof (populateCache_spec updates ∅ "Port") as Hspec.
  rewrite Htable in Hspec. destruct Hspec as (tbl & Htbl & _ & Hstored).
  exists tbl. split; [exact Htbl|].
  apply (Hstored "u1" row ∅); [vm_compute|]; reflexivity.
Defined.



Lemma populateCache_idem (updates : TableUpdates) (cache : Cache) :
  populateCache updates (populateCache updates cache) = populateCache updates cache.
Proof.
  rewrite !populateCache_eq. apply map_eq; intros table.
  rewrite !lookup_cache_after.
  destruct (Updates updates !! table) as [t|]; simpl; [|done].
  by rewrite rows_after_idem.
Qed.

(** An update deleting one row of one table. *)
Lemma populateCache_deletion (cache : Cache) (table uuid : string) (old : Row) :
  populateCache
    (mkTableUpdates {[ table := mkTableUpdate {[ uuid := mkRowUpdate old empty ]} ]})
    cache
  = <[table := delete uuid (default ∅ (cache !! table))]> cache.
Proof.
  rewrite populateCache_eq. apply map_eq; intros t.
  rewrite lookup_cache_after; simpl.
  destruct (decide (t = table)) as [->|Hne].
  - rewrite lookup_singleton_eq, lookup_insert_eq; simpl. f_equal.
    apply map_eq; intros u. rewrite lookup_rows_after.
    destruct (decide (u = uuid)) as [->|Hne].
    + by rewrite lookup_singleton_eq, lookup_delete_eq.
    + by rewrite lookup_singleton_ne, lookup_delete_ne.
  - by rewrite lookup_singleton_ne, lookup_insert_ne.
Qed.

(** C5, as stated, fails: deleting a row of a table the cache does not
    have yet adds the (empty) sub-map of that table to the cache. *)
Lemma deletion_of_absent_row_adds_table :
  row_at ∅ "Port" "u1" = None ∧
  populateCache
    (mkTableUpdates {[ "Port" := mkTableUpdate {[ "u1" := mkRowUpdate empty empty ]} ]})
    ∅ ≠ ∅.
Proof.
  split; [done|]. rewrite populateCache_deletion. intros Heq.
  apply (f_equal (λ c : Cache, c !! "Port")) in Heq.
  by rewrite lookup_insert_eq, lookup_empty in Heq.
Qed.

(** C5, amended: applying an update twice gives the cache that applying
    it once gives.  Deleting a row that the cache does not hold, that is,
    an update whose new value for it is the zero row [libovsdb.Row{}],
    leaves every row of the cache as it was; the cache itself is unchanged
    when it has a sub-map for the table and gains an empty one otherwise.
    A new value with a field map, be the map without fields, is no deletion:
    it is stored at the row. *)
Theorem populateCache_idempotent (updates : TableUpdates) (cache : Cache) :
  populateCache updates (populateCache updates cache) = populateCache updates cache ∧
  (∀ table uuid old,
     row_at cache table uuid = None →
     let deletion :=
       mkTableUpdates {[ table := mkTableUpdate {[ uuid := mkRowUpdate old (mkRow None) ]} ]} in
     populateCache deletion cache =
       match cache !! table with
       | Some _ => cache
       | None => <[table := ∅]> cache
       end ∧
     ∀ table' uuid',
       row_at (populateCache deletion cache) table' uuid' = row_at cache table' uuid') ∧
  (∀ table uuid old fields,
     let insertion :=
       mkTableUpdates
         {[ table := mkTableUpdate {[ uuid := mkRowUpdate old (mkRow (Some fields)) ]} ]} in
     row_at (populateCache insertion cache) table uuid = Some (mkRow (Some fields))).
Proof.
  split_and!; [apply populateCache_idem| |].
  - intros table uuid old Habsent deletion. unfold deletion.
    change (mkRow None) with empty.
    rewrite populateCache_deletion. unfold row_at in *.
    destruct (cache !! table) as [tbl|] eqn:Htbl; simpl in *.
    + rewrite delete_id by done. rewrite insert_id by done. by split.
    + rewrite delete_empty. split; [done|]. intros table' uuid'.
      destruct (decide (table' = table)) as [->|Hne].
      * by rewrite lookup_insert_eq, Htbl.
      * by rewrite lookup_insert_ne.
  - intros table uuid old fields insertion. rewrite row_at_after.
    unfold insertion; simpl. rewrite lookup_singleton_eq; simpl.
    by rewrite lookup_singleton_eq.
Qed.

Lemma populateCache_idempotent_witness :
  row_at ({[ "Bridge" := ∅ ]} : Cache) "Bridge" "u1" = None ∧
  populateCache
    (mkTableUpdates {[ "Bridge" := mkTableUpdate {[ "u1" := mkRowUpdate empty empty ]} ]})
    {[ "Bridge" := ∅ ]} = {[ "Bridge" := ∅ ]}.
Proof.
  assert (Habsent : row_at ({[ "Bridge" := ∅ ]} : Cache) "Bridge" "u1" = None)
    by (vm_compute; reflexivity).
  split; [exact Habsent|].
  destruct (populateCache_idempotent (mkTableUpdates ∅) {[ "Bridge" := ∅ ]})
    as (_ & Hdel & _).
  destruct (Hdel "Bridge" "u1" empty Habsent) as [Heq _].
  etrans; [exact Heq|]. vm_compute. reflexivity.
Defined.

End TableCacheFacts.

(** ** The transaction and its reply *)

Section TransactionFacts.

Lemma printed_nil s : printed s [] = s.
Proof. destruct s. unfold printed; simpl. by rewrite app_nil_r. Qed.

Lemma printed_printed s out1 out2 :
  printed (printed s out1) out2 = printed s (out1 ++ out2).
Proof. unfold printed; simpl. by rewrite app_assoc. Qed.

(** The loop over the reply never panics, touches standard output only,
    and leaves [ok] true exactly when it was true and no entry of the reply
    carries an error. *)
Lemma range_reply_run operations i reply ok s :
  ∃ out,
    range_reply operations i reply ok s =
      (Ret (ok && forallb (λ o, bool_decide (Error o = "")) reply), printed s out) ∧
    (Forall (λ o, Error o = "") reply → out = []).
Proof.
  revert i ok s. induction reply as [|o reply IH]; intros i ok s; simpl.
  - exists []. run. by rewrite printed_nil, andb_true_r.
  - run. destruct (bool_decide (Error o = "")) eqn:Herr; simpl.
    + destruct (IH (S i) ok s) as (out & -> & Hout). exists out. split; [done|].
      intros Hall. apply Hout. by inversion Hall.
    + apply bool_decide_eq_false in Herr.
      destruct (bool_decide (i < length operations)) eqn:Hi; simpl.
      * apply bool_decide_eq_true in Hi.
        destruct (lookup_lt_is_Some_2 operations i Hi) as [op ->].
        destruct (IH (S i) false (printed s [OutOperationError (Error o) (Details o) op]))
          as (out & -> & _).
        eexists. rewrite printed_printed, andb_false_r. split; [done|].
        intros Hall. by inversion Hall.
      * destruct (IH (S i) false (printed s [OutError (Error o)])) as (out & -> & _).
        eexists. rewrite printed_printed, andb_false_r. split; [done|].
        intros Hall. by inversion Hall.
Qed.

Lemma forallb_no_error reply :
  forallb (λ o, bool_decide (Error o = "")) reply = true ↔ Forall (λ o, Error o = "") reply.
Proof.
  induction reply as [|o reply IH]; simpl.
  - split; [constructor|done].
  - rewrite andb_true_iff, Forall_cons, IH. by rewrite bool_decide_eq_true.
Qed.

(** [addInternalPort] on a reply without errors: the loop prints nothing
    and leaves [ok] true, and the success branch reads [reply[1]]. *)
Lemma addInternalPort_no_error ovs bridgeName portName s :
  let operations := [insertIntfOp portName; insertPortOp portName; mutateOp bridgeName] in
  let reply := Transact ovs "Open_vSwitch" operations in
  Forall (λ o, Error o = "") reply →
  addInternalPort ovs bridgeName portName s =
    let s' := if bool_decide (length reply < 3) then printed s [OutTooFewReplies] else s in
    match reply !! 1%nat with
    | Some r => (Ret tt, printed s' [OutPortAdditionSuccessful (UUID r)])
    | None => (Panic "index out of range", s')
    end.
Proof.
  intros operations reply Hall. unfold addInternalPort.
  fold operations. fold reply. run.
  destruct (bool_decide (length reply < 3)); simpl.
  - destruct (range_reply_run operations 0 reply true (printed s [OutTooFewReplies]))
      as (out & -> & Hout).
    rewrite (Hout Hall), printed_nil. simpl.
    rewrite (proj2 (forallb_no_error reply) Hall). by destruct (reply !! 1%nat).
  - destruct (range_reply_run operations 0 reply true s) as (out & -> & Hout).
    rewrite (Hout Hall), printed_nil. simpl.
    rewrite (proj2 (forallb_no_error reply) Hall). by destruct (reply !! 1%nat).
Qed.

(** [addInternalPort] on a reply with an error: it returns, having written
    to standard output only. *)
Lemma addInternalPort_error ovs bridgeName portName s :
  let operations := [insertIntfOp portName; insertPortOp portName; mutateOp bridgeName] in
  let reply := Transact ovs "Open_vSwitch" operations in
  ¬ Forall (λ o, Error o = "") reply →
  ∃ out, addInternalPort ovs bridgeName portName s = (Ret tt, printed s out).
Proof.
  intros operations reply Hnot. unfold addInternalPort.
  fold operations. fold reply. run.
  assert (forallb (λ o, bool_decide (Error o = "")) reply = false) as Hf.
  { apply not_true_is_false. by rewrite forallb_no_error. }
  destruct (bool_decide (length reply < 3)); simpl.
  - destruct (range_reply_run operations 0 reply true (printed s [OutTooFewReplies]))
      as (out & -> & _).
    rewrite Hf; simpl. rewrite printed_printed. by eexists.
  - destruct (range_reply_run operations 0 reply true s) as (out & -> & _).
    rewrite Hf; simpl. by eexists.
Qed.

(** In every case [addInternalPort] changes standard output only. *)
Lemma addInternalPort_frame ovs bridgeName portName s :
  ∃ out, snd (addInternalPort ovs bridgeName portName s) = printed s out.
Proof.
  destruct (decide (Forall (λ o, Error o = "")
    (Transact ovs "Open_vSwitch"
       [insertIntfOp portName; insertPortOp portName; mutateOp bridgeName]))) as [Hall|Hnot].
  - rewrite addInternalPort_no_error by done. simpl.
    destruct (bool_decide _), (_ !! 1%nat); simpl; rewrite ?printed_printed; eauto.
    exists []. by rewrite printed_nil.
  - destruct (addInternalPort_error ovs bridgeName portName s Hnot) as (out & ->). eauto.
Qed.

(** C10: some reply passes the validation (no entry carries an error, [ok]
    stays true) with fewer than two entries, and [addInternalPort] then
    panics reading [reply[1]]; among the replies the validation passes, the
    read is in range exactly for those of at least two entries. *)
Theorem reply_index_out_of_range (bridgeName portName : string) (s : Store) :
  let operations := [insertIntfOp portName; insertPortOp portName; mutateOp bridgeName] in
  (∃ ovs : OvsdbClient,
     let reply := Transact ovs "Open_vSwitch" operations in
     Forall (λ o, Error o = "") reply ∧ length reply < 2 ∧
     fst (range_reply operations 0 reply true s) = Ret true ∧
     fst (addInternalPort ovs bridgeName portName s) = Panic "index out of range") ∧
  (∀ ovs : OvsdbClient,
     let reply := Transact ovs "Open_vSwitch" operations in
     Forall (λ o, Error o = "") reply →
     fst (range_reply operations 0 reply true s) = Ret true ∧
     (fst (addInternalPort ovs bridgeName portName s) = Panic "index out of range"
      ↔ length reply < 2)).
Proof.
  intros operations.
  assert (∀ ovs : OvsdbClient,
     let reply := Transact ovs "Open_vSwitch" operations in
     Forall (λ o, Error o = "") reply →
     fst (range_reply operations 0 reply true s) = Ret true ∧
     (fst (addInternalPort ovs bridgeName portName s) = Panic "index out of range"
      ↔ length reply < 2)) as Hgen.
  { intros ovs reply Hall. split.
    - destruct (range_reply_run operations 0 reply true s) as (out & -> & _). simpl.
      by rewrite (proj2 (forallb_no_error reply) Hall).
    - rewrite addInternalPort_no_error by done. fold operations. fold reply.
      destruct (reply !! 1%nat) as [r|] eqn:Hr; simpl.
      + apply lookup_lt_Some in Hr. split; [done|lia].
      + apply lookup_ge_None in Hr. split; [lia|done]. }
  split; [|exact Hgen].
  exists (mkOvsdbClient (λ _ _, [mkOperationResult 1 "" "" "uuid-intf"]) (λ _, None)).
  simpl. assert (Forall (λ o, Error o = "") [mkOperationResult 1 "" "" "uuid-intf"]) as Hall
    by (by repeat constructor).
  destruct (Hgen (mkOvsdbClient (λ _ _, [mkOperationResult 1 "" "" "uuid-intf"]) (λ _, None)) Hall)
    as [Hok Hpanic].
  simpl in *. split; [done|]. split; [lia|]. split; [exact Hok|]. apply Hpanic. lia.
Qed.

(** C3, as stated, fails: a reply without errors whose mutate reports zero
    affected rows is reported as a success. *)
Lemma zero_row_mutate_accepted :
  let reply := [mkOperationResult 1 "" "" "uuid-intf"; mkOperationResult 1 "" "" "uuid-port";
                mkOperationResult 0 "" "" ""] in
  let ovs := mkOvsdbClient (λ _ _, reply) (λ _, Some (mkTableUpdates ∅)) in
  let s := mkStore ∅ [] [] (mkNetworkState "") in
  (Count <$> reply !! 2%nat) = Some 0%Z ∧
  fst (range_reply [insertIntfOp "veth0"; insertPortOp "veth0"; mutateOp "br0"] 0 reply true s)
    = Ret true ∧
  addInternalPort ovs "br0" "veth0" s
    = (Ret tt, printed s [OutPortAdditionSuccessful "uuid-port"]).
Proof. vm_compute. done. Qed.

(** C3, amended: the affected-row count is not examined.  A reply of three
    or more entries without errors is reported as a success also when its
    third entry, the mutate's, counts zero rows. *)
Theorem zero_rows_not_checked (ovs : OvsdbClient) (bridgeName portName : string)
    (s : Store) (r1 r2 r3 : OperationResult) (rest : list OperationResult) :
  Transact ovs "Open_vSwitch"
    [insertIntfOp portName; insertPortOp portName; mutateOp bridgeName]
    = r1 :: r2 :: r3 :: rest →
  Forall (λ o, Error o = "") (r1 :: r2 :: r3 :: rest) →
  Count r3 = 0%Z →
  fst (range_reply [insertIntfOp portName; insertPortOp portName; mutateOp bridgeName]
         0 (r1 :: r2 :: r3 :: rest) true s) = Ret true ∧
  addInternalPort ovs bridgeName portName s
    = (Ret tt, printed s [OutPortAdditionSuccessful (UUID r2)]).
Proof.
  intros Hreply Hall _. split.
  - destruct (range_reply_run
                [insertIntfOp portName; insertPortOp portName; mutateOp bridgeName]
                0 (r1 :: r2 :: r3 :: rest) true s) as (out & -> & _).
    by rewrite (proj2 (forallb_no_error _) Hall).
  - rewrite addInternalPort_no_error by (by rewrite Hreply).
    rewrite Hreply. by simpl.
Qed.

Lemma zero_rows_not_checked_witness :
  let reply := [inserted "uuid-intf"; inserted "uuid-port"; mkOperationResult 0 "" "" ""] in
  Transact (sample_client reply) "Open_vSwitch"
    [insertIntfOp "veth1a2b3c4"; insertPortOp "veth1a2b3c4"; mutateOp "br0"] = reply ∧
  Forall (λ o, Error o = "") reply ∧
  Count (mkOperationResult 0 "" "" "") = 0%Z ∧
  addInternalPort (sample_client reply) "br0" "veth1a2b3c4" sample_store
    = (Ret tt, printed sample_store [OutPortAdditionSuccessful "uuid-port"]).
Proof.
  intros reply.
  assert (Transact (sample_client reply) "Open_vSwitch"
            [insertIntfOp "veth1a2b3c4"; insertPortOp "veth1a2b3c4"; mutateOp "br0"]
          = reply) as Hreply by reflexivity.
  assert (Forall (λ o, Error o = "") reply) as Hall by (repeat constructor).
  assert (Count (mkOperationResult 0 "" "" "") = 0%Z) as Hcount by reflexivity.
  split_and!; [exact Hreply|exact Hall|exact Hcount|].
  exact (proj2 (zero_rows_not_checked (sample_client reply) "br0" "veth1a2b3c4"
                  sample_store _ _ _ [] Hreply Hall Hcount)).
Defined.

(** [ok] ends false exactly when some entry of the reply, at whatever
    index, carries an error. *)
Lemma reply_error_marks_failure operations reply s :
  (range_reply operations 0 reply true s).1 = Ret false ↔
  Exists (λ o, Error o ≠ "") reply.
Proof.
  destruct (range_reply_run operations 0 reply true s) as (out & -> & _). simpl.
  destruct (forallb _ reply) eqn:Hf; simpl.
  - split; [done|]. intros Hex. apply forallb_no_error in Hf.
    apply Exists_exists in Hex as (o & Hin & Herr).
    rewrite Forall_forall in Hf. by destruct Herr; apply Hf.
  - split; [|done]. intros _.
    apply (not_Forall_Exists (λ o, Error o = "")).
    rewrite <- forallb_no_error. by rewrite Hf.
Qed.

(** C2 at a reply of two entries for three operations, none carrying an
    error: the shortfall is printed, [ok] stays true and the port addition
    is reported as successful. *)
Theorem short_reply_accepted :
  let reply := [inserted "uuid-intf"; inserted "uuid-port"] in
  let operations := [insertIntfOp "veth1a2b3c4"; insertPortOp "veth1a2b3c4"; mutateOp "br0"] in
  (length reply < length operations)%nat ∧
  (range_reply operations 0 reply true sample_store).1 = Ret true ∧
  addInternalPort (sample_client reply) "br0" "veth1a2b3c4" sample_store
    = (Ret tt,
       printed sample_store [OutTooFewReplies; OutPortAdditionSuccessful "uuid-port"]) ∧
  (createOvsInternalPort (sample_env reply) "veth" "br0" sample_store).1
    = Ret ("veth1a2b3c4", None).
Proof. split; [simpl; lia|]. vm_compute. done. Qed.

(** C1 at a reply whose mutate carries an error: the validation fails, the
    error is printed, and [createOvsInternalPort] of ovs.go returns the
    name with a nil error.  The other [createOvsInternalPort] returns an
    error when its command fails. *)
Theorem transaction_failure_not_returned :
  let reply := [inserted "uuid-intf"; inserted "uuid-port";
                mkOperationResult 0 "referential integrity violation" "no such bridge" ""] in
  let operations := [insertIntfOp "veth1a2b3c4"; insertPortOp "veth1a2b3c4"; mutateOp "br0"] in
  (range_reply operations 0 reply true sample_store).1 = Ret false ∧
  createOvsInternalPort (sample_env reply) "veth" "br0" sample_store
    = (Ret ("veth1a2b3c4", None),
       printed sample_store
         [OutOperationError "referential integrity violation" "no such bridge"
            (mutateOp "br0")]) ∧
  (createOvsInternalPort_vsctl
     (mkEnv "eth0" (rand_Reader (sample_env [])) (inr "no server")
        (λ _, Some "exit status 1") (λ _ _, None))
     "veth" "br0" sample_store).1
    = Ret ("veth1a2b3c4",
           Some "create ovs port veth1a2b3c4 on br0 failed with exit status 1").
Proof. vm_compute. done. Qed.

End TransactionFacts.

(** ** Port creation *)

Section CreationFacts.
Context (env : Env).

(** What [createOvsInternalPort] of ovs.go returns, when it returns: the
    generated name, and the error of the random source or of the connection.
    The reply of the transaction has no part in it.  Interface log and
    network state are left alone. *)
Lemma createOvsInternalPort_returns prefix bridge s name err s' :
  createOvsInternalPort env prefix bridge s = (Ret (name, err), s') →
  (name, err) =
    match rand_Reader env with
    | inl e => ("", Some e)
    | inr gen =>
        (prefix +:+ String.string_of_list_ascii (gen <$> seq 0 7),
         match libovsdb_Connect env with inl _ => None | inr e => Some e end)
    end ∧
  devlog s' = devlog s ∧ networkState s' = networkState s.
Proof.
  unfold createOvsInternalPort, GenerateRandomName, ovs_connect, populateCache.
  destruct (rand_Reader env) as [e|gen]; run.
  - intros [= <- <- <-]. done.
  - destruct (libovsdb_Connect env) as [ovs|e]; run.
    + destruct (MonitorAll ovs "Open_vSwitch") as [initial|]; run; [|done].
      match goal with |- context [addInternalPort ovs bridge ?n ?s1] =>
        destruct (addInternalPort_frame ovs bridge n s1) as (out & Hframe);
        destruct (addInternalPort ovs bridge n s1) as [[[]|msg] s2] end; [|done].
      simpl in Hframe. intros [= <- <- <-]. by rewrite Hframe.
    + intros [= <- <- <-]. done.
Qed.

Lemma createOvsInternalPort_vsctl_returns prefix bridge s name err s' :
  createOvsInternalPort_vsctl env prefix bridge s = (Ret (name, err), s') →
  (∃ suffix, err = None → name = prefix +:+ suffix ∧ String.length suffix = 7) ∧
  s' = s.
Proof.
  unfold createOvsInternalPort_vsctl, GenerateRandomName.
  destruct (rand_Reader env) as [e|gen]; run.
  - intros [= <- <- <-]. split; [|done]. by exists "".
  - destruct (exec_Run env _) as [e|]; run; intros [= <- <- <-]; (split; [|done]).
    + by exists "".
    + by eexists.
Qed.

(** C7: a name returned without an error, by either [createOvsInternalPort],
    is the prefix followed by seven generated characters. *)
Theorem createOvsInternalPort_name (prefix bridge : string) (s s' : Store) (name : string) :
  createOvsInternalPort env prefix bridge s = (Ret (name, None), s') ∨
  createOvsInternalPort_vsctl env prefix bridge s = (Ret (name, None), s') →
  ∃ suffix, name = prefix +:+ suffix ∧ String.length suffix = 7.
Proof.
  intros [Hrun|Hrun].
  - apply createOvsInternalPort_returns in Hrun as (Hres & _).
    destruct (rand_Reader env) as [e|gen]; [done|].
    injection Hres as -> _. by eexists.
  - apply createOvsInternalPort_vsctl_returns in Hrun as ((suffix & Hname) & _).
    exists suffix. by apply Hname.
Qed.

End CreationFacts.

(** ** Occurrences in error texts *)

Lemma append_String c a b : String c a +:+ b = String c (a +:+ b).
Proof. reflexivity. Qed.

Lemma prefix_nil a : String.prefix "" a = true.
Proof. by destruct a. Qed.

Lemma prefix_app_l x a b : String.prefix x a = true → String.prefix x (a +:+ b) = true.
Proof.
  revert x. induction a as [|c' a IH]; intros [|c x]; try done.
  - intros _. apply prefix_nil.
  - rewrite append_String. simpl. destruct (Ascii.ascii_dec c c'); [apply IH|done].
Qed.

Lemma prefix_refl x : String.prefix x x = true.
Proof. induction x as [|c x IH]; simpl; [done|]. by destruct (Ascii.ascii_dec c c). Qed.

Lemma contains_refl x : contains x x = true.
Proof. destruct x; [done|]. unfold contains; fold contains. by rewrite prefix_refl. Qed.

Lemma contains_String x c a : contains x a = true → contains x (String c a) = true.
Proof. intros H. unfold contains; fold contains. rewrite H. apply orb_true_r. Qed.

Lemma contains_app_r x a b : contains x b = true → contains x (a +:+ b) = true.
Proof.
  intros H. induction a as [|c a IH]; [done|].
  rewrite append_String. by apply contains_String.
Qed.

Lemma contains_app_l x a b : contains x a = true → contains x (a +:+ b) = true.
Proof.
  induction a as [|c a IH].
  - destruct x; [|done]. intros _. destruct ("" +:+ b); reflexivity.
  - unfold contains at 1; fold contains. intros [H|H]%orb_true_iff.
    + rewrite append_String. unfold contains; fold contains.
      rewrite <- append_String. by rewrite prefix_app_l.
    + rewrite append_String. apply contains_String. by apply IH.
Qed.

(** Finding a piece in a text built with [+:+]. *)
Ltac find_piece :=
  first [ reflexivity
        | apply contains_refl
        | apply contains_app_l; find_piece
        | apply contains_app_r; find_piece ].

(** ** Device sequences *)

Section SequenceFacts.
Context (env : Env).

(** A run of [fail_fast] without error: every step ran, and succeeded when
    its turn came. *)
Lemma fail_fast_ok log steps :
  (fail_fast env log steps).2 = None ↔
  ∀ i op, steps.*1 !! i = Some op → netlink env (log ++ take i steps.*1) op = None.
Proof.
  revert log. induction steps as [|[op wrap] steps IH]; intros log; simpl.
  - split; [|done]. by intros _ i op Hi.
  - destruct (netlink env log op) as [e|] eqn:Hop; simpl.
    + split; [done|]. intros Hall. specialize (Hall 0 op eq_refl).
      simpl in Hall. rewrite app_nil_r in Hall. congruence.
    + rewrite IH. split; intros Hall i op'.
      * destruct i as [|i]; simpl.
        -- intros [= <-]. by rewrite app_nil_r.
        -- intros Hi. rewrite cons_middle, app_assoc. by apply Hall.
      * intros Hi. specialize (Hall (S i) op' Hi). simpl in Hall.
        by rewrite cons_middle, app_assoc in Hall.
Qed.

(** The log of a run: the steps up to and including the first that failed,
    all of them when none did. *)
Lemma fail_fast_log log steps :
  ∃ k : nat, (k ≤ length steps)%nat ∧
    (fail_fast env log steps).1 = log ++ take k steps.*1 ∧
    ((fail_fast env log steps).2 = None → k = length steps) ∧
    (∀ msg, (fail_fast env log steps).2 = Some msg →
       ∃ op wrap e, steps !! (k - 1) = Some (op, wrap) ∧ 0 < k ∧
         netlink env (log ++ take (k - 1) steps.*1) op = Some e ∧ msg = wrap e).
Proof.
  revert log. induction steps as [|[op wrap] steps IH]; intros log; simpl.
  - exists 0. rewrite app_nil_r. split_and!; try done; lia.
  - destruct (netlink env log op) as [e|] eqn:Hop; simpl.
    + exists 1. simpl. split_and!; try done; try lia. intros msg [= <-].
      exists op, wrap, e. rewrite app_nil_r. split_and!; try done; lia.
    + destruct (IH (log ++ [op])) as (k & Hk & Hlog & Hnone & Hsome).
      exists (S k). rewrite Hlog. split_and!.
      * lia.
      * by rewrite <- app_assoc.
      * intros Hn. by rewrite (Hnone Hn).
      * intros msg Hmsg.
        destruct (Hsome msg Hmsg) as (op' & wrap' & e & Hat & Hpos & Hfail & ->).
        exists op', wrap', e. replace (S k - 1) with (S (k - 1)) by lia. simpl.
        rewrite cons_middle, app_assoc. split_and!; try done; lia.
Qed.

(** The three calls that follow port creation in both [Create]s. *)
Lemma attach_run name mtu nspid s :
  on_error (SetMtu env name mtu) id (
  on_error (InterfaceUp env name) id (
  on_error (SetInterfaceInNamespacePid env name nspid) id (
  set_OvsPort name;; mret None))) s =
  let run := fail_fast env (devlog s) (attach_steps name mtu nspid) in
  (Ret run.2,
   mkStore (cache s) (stdout s) run.1
     (if run.2 is None then mkNetworkState name else networkState s)).
Proof.
  unfold on_error, SetMtu, InterfaceUp, SetInterfaceInNamespacePid, netlink_call.
  run.
  repeat (match goal with |- context [netlink env ?l ?op] =>
            destruct (netlink env l op) end; simpl; try done).
Qed.

Lemma Create_run n nspid s name s1 :
  Bridge n ≠ "" → VethPrefix n ≠ "" →
  createOvsInternalPort env (VethPrefix n) (Bridge n) s = (Ret (name, None), s1) →
  Create env n nspid s =
    let run := fail_fast env (devlog s1) (attach_steps name (Mtu n) nspid) in
    (Ret run.2,
     mkStore (cache s1) (stdout s1) run.1
       (if run.2 is None then mkNetworkState name else networkState s1)).
Proof.
  intros Hbridge Hprefix Hcreate. unfold Create.
  rewrite !bool_decide_eq_false_2 by done.
  unfold mbind at 1, M_bind at 1. rewrite Hcreate.
  rewrite bool_decide_eq_false_2 by (by intros []).
  unfold Sleep. unfold mbind at 1, M_bind at 1, mret at 1, M_ret at 1.
  apply attach_run.
Qed.

Lemma Create_vsctl_run n nspid s name s1 :
  Bridge n ≠ "" → VethPrefix n ≠ "" →
  createOvsInternalPort_vsctl env (VethPrefix n) (Bridge n) s = (Ret (name, None), s1) →
  Create_vsctl env n nspid s =
    let run := fail_fast env (devlog s1) (attach_steps name (Mtu n) nspid) in
    (Ret run.2,
     mkStore (cache s1) (stdout s1) run.1
       (if run.2 is None then mkNetworkState name else networkState s1)).
Proof.
  intros Hbridge Hprefix Hcreate. unfold Create_vsctl.
  rewrite !bool_decide_eq_false_2 by done.
  unfold mbind at 1, M_bind at 1. rewrite Hcreate.
  rewrite bool_decide_eq_false_2 by (by intros []).
  apply attach_run.
Qed.

(** Whatever [Create] does, a result other than [nil] leaves the network
    state as it was. *)
Lemma Create_error_state n nspid s r s' :
  Create env n nspid s = (r, s') → r ≠ Ret None → networkState s' = networkState s.
Proof.
  destruct (decide (Bridge n = "")) as [Hb|Hb];
    [unfold Create; rewrite bool_decide_eq_true_2 by done; by intros [= <- <-]|].
  destruct (decide (VethPrefix n = "")) as [Hp|Hp];
    [unfold Create; rewrite (bool_decide_eq_false_2 _ Hb), bool_decide_eq_true_2 by done;
     by intros [= <- <-]|].
  destruct (createOvsInternalPort env (VethPrefix n) (Bridge n) s)
    as [[[name [e|]]|msg] s1] eqn:Hcreate.
  - unfold Create. rewrite !bool_decide_eq_false_2 by done.
    unfold mbind at 1, M_bind at 1. rewrite Hcreate.
    rewrite bool_decide_eq_true_2 by done. intros [= <- <-] _.
    by apply createOvsInternalPort_returns in Hcreate as (_ & _ & ?).
  - rewrite (Create_run _ _ _ _ _ Hb Hp Hcreate). cbv zeta.
    apply createOvsInternalPort_returns in Hcreate as (_ & _ & Hns).
    generalize (fail_fast env (devlog s1) (attach_steps name (Mtu n) nspid)).
    by intros [log [e|]] [= <- <-] Hr.
  - unfold Create. rewrite !bool_decide_eq_false_2 by done.
    unfold mbind at 1, M_bind at 1. rewrite Hcreate. intros [= <- <-] _.
    clear -Hcreate. revert Hcreate.
    unfold createOvsInternalPort, GenerateRandomName, ovs_connect, populateCache.
    destruct (rand_Reader env) as [e|gen]; run; [done|].
    destruct (libovsdb_Connect env) as [ovs|e]; run; [|done].
    destruct (MonitorAll ovs "Open_vSwitch") as [initial|]; run; [|by intros [= <- <-]].
    match goal with |- context [addInternalPort ovs ?b ?n ?s1] =>
      destruct (addInternalPort_frame ovs b n s1) as (out & Hframe);
      destruct (addInternalPort ovs b n s1) as [[[]|msg'] s2] end; [done|].
    simpl in Hframe. intros [= <- <-]. by rewrite Hframe.
Qed.

Lemma Create_vsctl_error_state n nspid s r s' :
  Create_vsctl env n nspid s = (r, s') → r ≠ Ret None → networkState s' = networkState s.
Proof.
  destruct (decide (Bridge n = "")) as [Hb|Hb];
    [unfold Create_vsctl; rewrite bool_decide_eq_true_2 by done; by intros [= <- <-]|].
  destruct (decide (VethPrefix n = "")) as [Hp|Hp];
    [unfold Create_vsctl;
     rewrite (bool_decide_eq_false_2 _ Hb), bool_decide_eq_true_2 by done;
     by intros [= <- <-]|].
  destruct (createOvsInternalPort_vsctl env (VethPrefix n) (Bridge n) s)
    as [[[name [e|]]|msg] s1] eqn:Hcreate.
  - unfold Create_vsctl. rewrite !bool_decide_eq_false_2 by done.
    unfold mbind at 1, M_bind at 1. rewrite Hcreate.
    rewrite bool_decide_eq_true_2 by done. intros [= <- <-] _.
    by apply createOvsInternalPort_vsctl_returns in Hcreate as (_ & ->).
  - rewrite (Create_vsctl_run _ _ _ _ _ Hb Hp Hcreate). cbv zeta.
    apply createOvsInternalPort_vsctl_returns in Hcreate as (_ & ->).
    generalize (fail_fast env (devlog s) (attach_steps name (Mtu n) nspid)).
    by intros [log [e|]] [= <- <-] Hr.
  - exfalso. revert Hcreate. unfold createOvsInternalPort_vsctl, GenerateRandomName.
    destruct (rand_Reader env); run; [done|]. by destruct (exec_Run env _).
Qed.

(** The attachment steps as a fail-fast run, spelled out. *)
Lemma attach_steps_run name mtu nspid log :
  let ops := [DevSetMtu name mtu; DevInterfaceUp name;
              DevSetInterfaceInNamespacePid name nspid] in
  let run := fail_fast env log (attach_steps name mtu nspid) in
  ∃ k : nat,
    run.1 = log ++ take k ops ∧
    (run.2 = None ↔
       ∀ i op, ops !! i = Some op → netlink env (log ++ take i ops) op = None) ∧
    (run.2 = None → k = 3) ∧
    (∀ e, run.2 = Some e →
       ∃ op, ops !! (k - 1) = Some op ∧ (0 < k)%nat ∧
         netlink env (log ++ take (k - 1) ops) op = Some e).
Proof.
  intros ops run.
  destruct (fail_fast_log log (attach_steps name mtu nspid))
    as (k & Hk & Hlog & Hnone & Hsome).
  exists k. split_and!; [done| apply fail_fast_ok | done |].
  intros e He. destruct (Hsome e He) as (op & wrap & e' & Hat & Hpos & Hfail & ->).
  exists op. split_and!; try done.
  - change ops with (attach_steps name mtu nspid).*1.
    by rewrite list_lookup_fmap, Hat.
  - assert (wrap = id) as ->.
    { clear -Hat. destruct (k - 1) as [|[|[|?]]]; simpl in Hat; by simplify_eq. }
    exact Hfail.
Qed.

(** [Initialize] is the fail-fast run of the finalization steps on the
    device recorded in the network state. *)
Lemma Initialize_run config s :
  Initialize env config s =
    if bool_decide (OvsPort (networkState s) = "") then
      (Ret (Some "ovsPort is not specified"), s)
    else
      let run := fail_fast env (devlog s)
                   (finalize_steps (defaultDevice env) config (OvsPort (networkState s))) in
      (Ret run.2, mkStore (cache s) (stdout s) run.1 (networkState s)).
Proof.
  unfold Initialize, finalize_steps, on_error, when, SetMtu, InterfaceUp, InterfaceDown,
    ChangeInterfaceName, SetInterfaceMac, SetInterfaceIp, SetDefaultGateway, netlink_call.
  run.
  destruct (bool_decide (OvsPort (networkState s) = "")); [done|].
  destruct (bool_decide (MacAddress config = "")),
    (bool_decide (IPv6Address config = "")),
    (bool_decide (Gateway config = "")),
    (bool_decide (IPv6Gateway config = "")); simpl;
  repeat (match goal with |- context [netlink env ?l ?op] =>
            destruct (netlink env l op) end; simpl; try done).
Qed.


Lemma finalize_steps_ops dev config ovsPort :
  (finalize_steps dev config ovsPort).*1 =
    [DevInterfaceDown ovsPort; DevChangeInterfaceName ovsPort dev]
    ++ (if bool_decide (MacAddress config = "") then []
        else [DevSetInterfaceMac dev (MacAddress config)])
    ++ [DevSetInterfaceIp dev (Address config)]
    ++ (if bool_decide (IPv6Address config = "") then []
        else [DevSetInterfaceIp dev (IPv6Address config)])
    ++ [DevSetMtu dev (Mtu config); DevInterfaceUp dev]
    ++ (if bool_decide (Gateway config = "") then []
        else [DevSetDefaultGateway (Gateway config) dev])
    ++ (if bool_decide (IPv6Gateway config = "") then []
        else [DevSetDefaultGateway (IPv6Gateway config) dev]).
Proof.
  unfold finalize_steps.
  by destruct (bool_decide (MacAddress config = "")),
    (bool_decide (IPv6Address config = "")),
    (bool_decide (Gateway config = "")),
    (bool_decide (IPv6Gateway config = "")).
Qed.

(** C8: once the port is created, [Create] (of either file) sets the MTU
    of the new device, brings it up and moves it into the namespace of
    [nspid], in this order and stopping at the first step that fails, whose
    error it returns; [networkState.OvsPort] becomes the port name when all
    three succeeded, and whenever [Create] does not return [nil] the
    network state is the one it was given. *)
Theorem Create_sequence (n : Network) (nspid : Z) (s : Store) :
  let attached (create : Network → Z → M (option error)) (name : string) :=
    let ops := [DevSetMtu name (Mtu n); DevInterfaceUp name;
                DevSetInterfaceInNamespacePid name nspid] in
    ∃ (k : nat) (err : option error) (s' : Store),
      create n nspid s = (Ret err, s') ∧
      devlog s' = devlog s ++ take k ops ∧
      (err = None ↔
         ∀ i op, ops !! i = Some op → netlink env (devlog s ++ take i ops) op = None) ∧
      (err = None → k = 3) ∧
      (∀ e, err = Some e →
         ∃ op, ops !! (k - 1) = Some op ∧ (0 < k)%nat ∧
           netlink env (devlog s ++ take (k - 1) ops) op = Some e) ∧
      networkState s' = (if err is None then mkNetworkState name else networkState s) in
  (Bridge n ≠ "" → VethPrefix n ≠ "" →
   (∀ name s1,
      createOvsInternalPort env (VethPrefix n) (Bridge n) s = (Ret (name, None), s1) →
      attached (Create env) name) ∧
   (∀ name s1,
      createOvsInternalPort_vsctl env (VethPrefix n) (Bridge n) s = (Ret (name, None), s1) →
      attached (Create_vsctl env) name)) ∧
  (∀ r s',
     Create env n nspid s = (r, s') ∨ Create_vsctl env n nspid s = (r, s') →
     r ≠ Ret None → networkState s' = networkState s).
Proof.
  intros attached. split.
  - intros Hbridge Hprefix. split; intros name s1 Hcreate; unfold attached.
    + rewrite (Create_run _ _ _ _ _ Hbridge Hprefix Hcreate). cbv zeta.
      apply createOvsInternalPort_returns in Hcreate as (_ & -> & ->).
      destruct (attach_steps_run name (Mtu n) nspid (devlog s))
        as (k & Hlog & Hok & Hall & Hfail).
      exists k. eexists _, _. split_and!; [reflexivity|..]; simpl; done.
    + rewrite (Create_vsctl_run _ _ _ _ _ Hbridge Hprefix Hcreate). cbv zeta.
      apply createOvsInternalPort_vsctl_returns in Hcreate as (_ & ->).
      destruct (attach_steps_run name (Mtu n) nspid (devlog s))
        as (k & Hlog & Hok & Hall & Hfail).
      exists k. eexists _, _. split_and!; [reflexivity|..]; simpl; done.
  - intros r s' [Hrun|Hrun] Hr.
    + by apply (Create_error_state n nspid s r s').
    + by apply (Create_vsctl_error_state n nspid s r s').
Qed.



End SequenceFacts.

(** ** Instances in the sample world *)

Lemma createOvsInternalPort_name_witness :
  createOvsInternalPort (sample_env [inserted "uuid-intf"; inserted "uuid-port"; inserted ""])
    "veth" "br0" sample_store
    = (Ret ("veth1a2b3c4", None),
       printed sample_store [OutPortAdditionSuccessful "uuid-port"]) ∧
  ∃ suffix, "veth1a2b3c4" = "veth" +:+ suffix ∧ String.length suffix = 7.
Proof.
  assert (createOvsInternalPort
            (sample_env [inserted "uuid-intf"; inserted "uuid-port"; inserted ""])
            "veth" "br0" sample_store
          = (Ret ("veth1a2b3c4", None),
             printed sample_store [OutPortAdditionSuccessful "uuid-port"])) as Hrun
    by (vm_compute; reflexivity).
  split; [exact Hrun|].
  exact (createOvsInternalPort_name _ "veth" "br0" _ _ "veth1a2b3c4" (or_introl Hrun)).
Defined.

Lemma Create_sequence_witness :
  Bridge sample_config ≠ "" ∧ VethPrefix sample_config ≠ "" ∧
  createOvsInternalPort_vsctl (sample_env []) "veth" "br0" sample_store
    = (Ret ("veth1a2b3c4", None), sample_store) ∧
  ∃ (k : nat) (err : option error) (s' : Store),
    Create_vsctl (sample_env []) sample_config 42 sample_store = (Ret err, s') ∧
    devlog s' =
      take k [DevSetMtu "veth1a2b3c4" 1500; DevInterfaceUp "veth1a2b3c4";
              DevSetInterfaceInNamespacePid "veth1a2b3c4" 42].
Proof.
  assert (Bridge sample_config ≠ "") as Hbridge by (vm_compute; discriminate).
  assert (VethPrefix sample_config ≠ "") as Hprefix by (vm_compute; discriminate).
  assert (createOvsInternalPort_vsctl (sample_env []) "veth" "br0" sample_store
          = (Ret ("veth1a2b3c4", None), sample_store)) as Hrun
    by (vm_compute; reflexivity).
  split_and!; [done..|].
  destruct (Create_sequence (sample_env []) sample_config 42 sample_store) as [Hattach _].
  destruct (Hattach Hbridge Hprefix) as [_ Hvsctl].
  destruct (Hvsctl "veth1a2b3c4" sample_store Hrun) as (k & err & s' & Hcreate & Hlog & _).
  exists k, err, s'. split; [exact Hcreate|exact Hlog].
Defined.


(** * Further properties *)

(** ** The table cache, continued *)

Module TableCacheMore.
Import TableCache TableCacheFacts.

Lemma row_at_populateCache updates cache table uuid :
  row_at (populateCache updates cache) table uuid =
    match Updates updates !! table ≫= (λ t, Rows t !! uuid) with
    | Some row => row_result row
    | None => row_at cache table uuid
    end.
Proof.
  unfold row_at. rewrite populateCache_eq, lookup_cache_after.
  destruct (Updates updates !! table) as [t|]; simpl; [|done].
  rewrite lookup_rows_after. destruct (Rows t !! uuid); [done|].
  by destruct (cache !! table).
Qed.

(** X1: [populateCache] never drops a table: afterwards the cache has the
    tables it had and those of the update, and no other. *)
Theorem populateCache_tables (updates : TableUpdates) (cache : Cache) :
  dom (populateCache updates cache) = dom cache ∪ dom (Updates updates).
Proof.
  apply set_eq; intros table.
  rewrite elem_of_union, !elem_of_dom, populateCache_eq, lookup_cache_after.
  destruct (Updates updates !! table) as [t|]; split.
  - intros _. right. by eexists.
  - intros _. by eexists.
  - intros ?. by left.
  - by intros [?|[? [=]]].
Qed.

(** X2: a cache that stores no empty row stores none after an update. *)
Theorem populateCache_no_empty_row (updates : TableUpdates) (cache : Cache) :
  no_empty_row cache → no_empty_row (populateCache updates cache).
Proof.
  intros Hinv table uuid row. rewrite row_at_populateCache.
  destruct (Updates updates !! table ≫= _) as [r|]; [|apply Hinv].
  unfold row_result. case_bool_decide; [done|]. by intros [= <-].
Qed.

Lemma populateCache_no_empty_row_witness :
  no_empty_row ∅ ∧
  no_empty_row
    (populateCache
       (mkTableUpdates
          {[ "Bridge" := mkTableUpdate
               {[ "u1" := mkRowUpdate empty (mkRow (Some ∅)) ]} ]}) ∅).
Proof.
  assert (no_empty_row ∅) as Hinv by (intros table uuid row; by vm_compute).
  split; [exact Hinv|]. exact (populateCache_no_empty_row _ ∅ Hinv).
Defined.

Lemma lookup_replace_old f updates table :
  Updates (replace_old f updates) !! table =
    (λ t, mkTableUpdate
            (map_imap (λ uuid row, Some (mkRowUpdate (f table uuid) (New row))) (Rows t)))
      <$> Updates updates !! table.
Proof.
  unfold replace_old; simpl. rewrite map_lookup_imap.
  by destruct (Updates updates !! table).
Qed.

(** X3: [populateCache] does not read the old values of an update: with
    other old values in their place the cache comes out the same. *)
Theorem populateCache_ignores_old (f : string → string → Row)
    (updates : TableUpdates) (cache : Cache) :
  populateCache (replace_old f updates) cache = populateCache updates cache.
Proof.
  rewrite !populateCache_eq. apply map_eq; intros table.
  rewrite !lookup_cache_after, lookup_replace_old.
  destruct (Updates updates !! table) as [t|]; simpl; [|done].
  f_equal. apply map_eq; intros uuid. rewrite !lookup_rows_after, map_lookup_imap.
  by destruct (Rows t !! uuid).
Qed.

(** X4: updates that share no row can be applied in either order. *)
Theorem populateCache_commute (u1 u2 : TableUpdates) (cache : Cache) :
  row_disjoint u1 u2 →
  populateCache u2 (populateCache u1 cache) = populateCache u1 (populateCache u2 cache).
Proof.
  intros Hdisj. rewrite !populateCache_eq. apply map_eq; intros table.
  rewrite !lookup_cache_after.
  destruct (Updates u1 !! table) as [t1|] eqn:H1,
    (Updates u2 !! table) as [t2|] eqn:H2; simpl; try done.
  f_equal. apply map_eq; intros uuid. rewrite !lookup_rows_after.
  destruct (Rows t2 !! uuid) as [r2|] eqn:Hr2, (Rows t1 !! uuid) as [r1|] eqn:Hr1;
    try done.
  by destruct (map_disjoint_spec (Rows t1) (Rows t2)) as [Hd _];
    destruct (Hd (Hdisj table t1 t2 H1 H2) uuid r1 r2).
Qed.

Lemma populateCache_commute_witness :
  let u1 := mkTableUpdates
    {[ "Port" := mkTableUpdate {[ "u1" := mkRowUpdate empty (mkRow (Some ∅)) ]} ]} in
  let u2 := mkTableUpdates
    {[ "Port" := mkTableUpdate {[ "u2" := mkRowUpdate empty empty ]} ]} in
  row_disjoint u1 u2 ∧
  populateCache u2 (populateCache u1 ∅) = populateCache u1 (populateCache u2 ∅).
Proof.
  intros u1 u2.
  assert (row_disjoint u1 u2) as Hdisj.
  { intros table t1 t2 H1 H2. unfold u1, u2 in *; simpl in *.
    apply lookup_singleton_Some in H1 as [<- <-].
    apply lookup_singleton_Some in H2 as [_ <-]. simpl.
    by apply map_disjoint_singleton_l_2. }
  split; [exact Hdisj|]. exact (populateCache_commute u1 u2 ∅ Hdisj).
Defined.

End TableCacheMore.

(** ** The transaction, continued *)

Lemma range_reply_lines operations i reply ok s :
  range_reply operations i reply ok s =
    (Ret (ok && forallb (λ o, bool_decide (Error o = "")) reply),
     printed s (error_lines operations i reply)).
Proof.
  revert i ok s. induction reply as [|o reply IH]; intros i ok s; simpl.
  - run. by rewrite printed_nil, andb_true_r.
  - run. destruct (bool_decide (Error o = "")) eqn:Herr; simpl.
    + by rewrite IH.
    + destruct (bool_decide (i < length operations)) eqn:Hi; simpl.
      * apply bool_decide_eq_true in Hi.
        destruct (lookup_lt_is_Some_2 operations i Hi) as [op ->]. simpl.
        by rewrite IH, printed_printed, andb_false_r.
      * apply bool_decide_eq_false in Hi.
        rewrite (lookup_ge_None_2 operations i) by lia. simpl.
        by rewrite IH, printed_printed, andb_false_r.
Qed.

(** Everything [addInternalPort] does, by the reply it gets. *)
Lemma addInternalPort_output ovs bridgeName portName s :
  let operations := [insertIntfOp portName; insertPortOp portName; mutateOp bridgeName] in
  let reply := Transact ovs "Open_vSwitch" operations in
  let s1 := printed s ((if bool_decide (length reply < 3) then [OutTooFewReplies] else [])
                       ++ error_lines operations 0 reply) in
  addInternalPort ovs bridgeName portName s =
    if forallb (λ o, bool_decide (Error o = "")) reply then
      match reply !! 1%nat with
      | Some r => (Ret tt, printed s1 [OutPortAdditionSuccessful (UUID r)])
      | None => (Panic "index out of range", s1)
      end
    else (Ret tt, s1).
Proof.
  intros operations reply s1. unfold s1, addInternalPort.
  fold operations. fold reply. run.
  destruct (bool_decide (length reply < 3)); simpl;
    rewrite range_reply_lines; simpl; rewrite ?printed_printed;
    destruct (forallb _ reply); try done;
    destruct (reply !! 1%nat); by rewrite ?printed_printed.
Qed.

Lemma error_lines_no_success operations i reply GoUuid :
  OutPortAdditionSuccessful GoUuid ∉ error_lines operations i reply.
Proof.
  revert i. induction reply as [|o reply IH]; intros i; simpl; [by intros ?%elem_of_nil|].
  rewrite elem_of_app. intros [Hin|Hin]; [|by apply (IH (S i))].
  destruct (bool_decide (Error o = "")); [by apply elem_of_nil in Hin|].
  apply list_elem_of_singleton in Hin. by destruct (operations !! i).
Qed.

(** X5: [addInternalPort] reports a successful port addition exactly when
    no entry of the reply carries an error and the reply has a second
    entry, and then with the identifier of that entry; when some entry
    carries an error it returns without panicking. *)
Theorem addInternalPort_success_line (ovs : OvsdbClient) (bridgeName portName : string)
    (s : Store) (GoUuid : string) :
  let reply := Transact ovs "Open_vSwitch"
                 [insertIntfOp portName; insertPortOp portName; mutateOp bridgeName] in
  (OutPortAdditionSuccessful GoUuid ∈ stdout (addInternalPort ovs bridgeName portName s).2 ↔
   OutPortAdditionSuccessful GoUuid ∈ stdout s ∨
   (Forall (λ o, Error o = "") reply ∧ UUID <$> reply !! 1%nat = Some GoUuid)) ∧
  (¬ Forall (λ o, Error o = "") reply →
   (addInternalPort ovs bridgeName portName s).1 = Ret tt).
Proof.
  intros reply. rewrite addInternalPort_output. fold reply. cbv zeta.
  rewrite <- forallb_no_error.
  set (lines := (if bool_decide (length reply < 3) then [OutTooFewReplies] else [])
                ++ error_lines _ 0 reply).
  assert (OutPortAdditionSuccessful GoUuid ∉ lines) as Hlines.
  { unfold lines. rewrite elem_of_app. intros [Hin|Hin].
    - destruct (bool_decide _); [|by apply elem_of_nil in Hin].
      by apply list_elem_of_singleton in Hin.
    - by apply error_lines_no_success in Hin. }
  destruct (forallb _ reply); [|split; [|done]].
  - split; [|by intros []]. destruct (reply !! 1%nat) as [r|]; simpl.
    + rewrite !elem_of_app, list_elem_of_singleton. split.
      * intros [[?|?]|[= <-]]; [by left|done|by right].
      * intros [?|[_ [= <-]]]; [by left; left|by right].
    + rewrite elem_of_app. split.
      * intros [?|?]; [by left|done].
      * intros [?|[_ [=]]]. by left.
  - simpl. rewrite elem_of_app. split.
    + intros [?|?]; [by left|done].
    + intros [?|[[=] _]]. by left.
Qed.

Lemma error_lines_spec operations n reply :
  length (error_lines operations n reply) = length (filter (λ o, Error o ≠ "") reply) ∧
  ∀ i o, reply !! i = Some o → Error o ≠ "" →
    match operations !! (n + i) with
    | Some op => OutOperationError (Error o) (Details o) op ∈ error_lines operations n reply
    | None => OutError (Error o) ∈ error_lines operations n reply
    end.
Proof.
  revert n. induction reply as [|o reply IH]; intros n; simpl.
  - split; [done|]. intros i o Hi. by rewrite lookup_nil in Hi.
  - destruct (IH (S n)) as [Hlen Hin]. rewrite length_app, Hlen.
    split.
    + rewrite filter_cons. case_bool_decide as Herr.
      * by rewrite decide_False by (by intros ?).
      * by rewrite decide_True.
    + intros [|i] o'; simpl.
      * intros [= <-] Herr. rewrite bool_decide_eq_false_2 by done.
        rewrite Nat.add_0_r.
        destruct (operations !! n); simpl; apply list_elem_of_here.
      * intros Hi Herr. specialize (Hin i o' Hi Herr).
        replace (n + S i) with (S n + i) by lia.
        destruct (operations !! (S n + i)); apply elem_of_app; by right.
Qed.

(** X6: the loop over the reply prints one line for each entry that carries
    an error and nothing else: as many lines as there are such entries,
    and for the entry at index [i] the line that tells operation [i] when
    there is one and the bare error otherwise. *)
Theorem range_reply_error_lines (operations : list Operation)
    (reply : list OperationResult) (s : Store) :
  ∃ lines,
    (range_reply operations 0 reply true s).2 = printed s lines ∧
    length lines = length (filter (λ o, Error o ≠ "") reply) ∧
    ∀ i o, reply !! i = Some o → Error o ≠ "" →
      match operations !! i with
      | Some op => OutOperationError (Error o) (Details o) op ∈ lines
      | None => OutError (Error o) ∈ lines
      end.
Proof.
  exists (error_lines operations 0 reply). rewrite range_reply_lines.
  split; [done|]. apply (error_lines_spec operations 0 reply).
Qed.

(** ** Connecting *)

Section ConnectionFacts.
Context (env : Env).
Import TableCache.

Lemma ovs_connect_run s :
  ovs_connect env s =
    let s0 := mkStore ∅ (stdout s) (devlog s) (networkState s) in
    match libovsdb_Connect env with
    | inr err => (Ret (None, Some err), s0)
    | inl ovs =>
        match MonitorAll ovs "Open_vSwitch" with
        | None => (Panic "invalid memory address or nil pointer dereference", s0)
        | Some initial =>
            (Ret (Some ovs, None),
             mkStore (TableCache.populateCache initial ∅) (stdout s) (devlog s)
               (networkState s))
        end
    end.
Proof.
  unfold ovs_connect, populateCache. run.
  destruct (libovsdb_Connect env) as [ovs|err]; [|done].
  by destruct (MonitorAll ovs "Open_vSwitch").
Qed.

(** X7: [ovs_connect] starts from an empty cache whatever the cache held.
    When the connection fails it returns that error and leaves the cache
    empty; when [MonitorAll] yields nil it panics; otherwise it returns the
    client, and the cache then holds, for each row of the snapshot, its new
    value unless that is the empty row, and nothing else.  Standard output,
    interface log and network state are as they were. *)
Theorem ovs_connect_outcomes (s : Store) :
  match libovsdb_Connect env with
  | inr err =>
      ovs_connect env s =
        (Ret (None, Some err), mkStore ∅ (stdout s) (devlog s) (networkState s))
  | inl ovs =>
      match MonitorAll ovs "Open_vSwitch" with
      | None =>
          ovs_connect env s =
            (Panic "invalid memory address or nil pointer dereference",
             mkStore ∅ (stdout s) (devlog s) (networkState s))
      | Some initial =>
          ∃ c : Cache,
            ovs_connect env s =
              (Ret (Some ovs, None), mkStore c (stdout s) (devlog s) (networkState s)) ∧
            no_empty_row c ∧
            ∀ table uuid,
              row_at c table uuid =
                match Updates initial !! table ≫= (λ t, Rows t !! uuid) with
                | Some row => if bool_decide (New row = empty) then None else Some (New row)
                | None => None
                end
      end
  end.
Proof.
  rewrite ovs_connect_run. cbv zeta.
  destruct (libovsdb_Connect env) as [ovs|err]; [|done].
  destruct (MonitorAll ovs "Open_vSwitch") as [initial|]; [|done].
  eexists. split; [done|].
  assert (∀ table uuid,
            row_at (TableCache.populateCache initial ∅) table uuid =
              match Updates initial !! table ≫= (λ t, Rows t !! uuid) with
              | Some row => if bool_decide (New row = empty) then None else Some (New row)
              | None => None
              end) as Hrows.
  { intros table uuid. rewrite TableCacheMore.row_at_populateCache.
    destruct (Updates initial !! table ≫= _); [done|].
    unfold row_at. by rewrite lookup_empty. }
  split; [|exact Hrows].
  intros table uuid row. rewrite Hrows.
  destruct (Updates initial !! table ≫= _) as [r|]; [|done].
  case_bool_decide; [done|]. by intros [= <-].
Qed.

End ConnectionFacts.

(** ** Port creation and attachment, continued *)

Section AttachmentFacts.
Context (env : Env).

(** [createOvsInternalPort] of ovs.go, by what the world answers. *)
Lemma createOvsInternalPort_run prefix bridge s :
  createOvsInternalPort env prefix bridge s =
    match rand_Reader env with
    | inl e => (Ret ("", Some e), s)
    | inr gen =>
        let name := prefix +:+ String.string_of_list_ascii (gen <$> seq 0 7) in
        let s0 := mkStore ∅ (stdout s) (devlog s) (networkState s) in
        match libovsdb_Connect env with
        | inr err => (Ret (name, Some err), s0)
        | inl ovs =>
            match MonitorAll ovs "Open_vSwitch" with
            | None => (Panic "invalid memory address or nil pointer dereference", s0)
            | Some initial =>
                let s1 := mkStore (TableCache.populateCache initial ∅) (stdout s)
                            (devlog s) (networkState s) in
                match addInternalPort ovs bridge name s1 with
                | (Ret _, s2) => (Ret (name, None), s2)
                | (Panic msg, s2) => (Panic msg, s2)
                end
            end
        end
    end.
Proof.
  unfold createOvsInternalPort, GenerateRandomName.
  destruct (rand_Reader env) as [e|gen]; [done|]. simpl.
  unfold mbind at 1, M_bind at 1. rewrite ovs_connect_run. cbv zeta.
  destruct (libovsdb_Connect env) as [ovs|err]; [|done].
  destruct (MonitorAll ovs "Open_vSwitch") as [initial|]; [|done].
  simpl. run.
  by destruct (addInternalPort ovs bridge _ _) as [[[]|msg] s2].
Qed.

Lemma createOvsInternalPort_vsctl_run prefix bridge s :
  createOvsInternalPort_vsctl env prefix bridge s =
    match rand_Reader env with
    | inl e => (Ret ("", Some e), s)
    | inr gen =>
        let name := prefix +:+ String.string_of_list_ascii (gen <$> seq 0 7) in
        (Ret (name,
              (λ err, "create ovs port " +:+ name +:+ " on " +:+ bridge
                        +:+ " failed with " +:+ err)
                <$> exec_Run env ["ovs-vsctl"; "add-port"; bridge; name; "--"; "set";
                                  "Interface"; name; "type=internal"]), s)
    end.
Proof.
  unfold createOvsInternalPort_vsctl, GenerateRandomName.
  destruct (rand_Reader env) as [e|gen]; [done|]. simpl.
  by destruct (exec_Run env _).
Qed.

(** The two [Create]s, by the outcome of port creation. *)
Lemma Create_cases n nspid s :
  Create env n nspid s =
    if bool_decide (Bridge n = "") then (Ret (Some "bridge is not specified"), s)
    else if bool_decide (VethPrefix n = "") then
      (Ret (Some "veth prefix is not specified"), s)
    else
      match createOvsInternalPort env (VethPrefix n) (Bridge n) s with
      | (Ret (name, Some e), s1) => (Ret (Some e), s1)
      | (Ret (name, None), s1) =>
          let run := fail_fast env (devlog s1) (attach_steps name (Mtu n) nspid) in
          (Ret run.2,
           mkStore (cache s1) (stdout s1) run.1
             (if run.2 is None then mkNetworkState name else networkState s1))
      | (Panic msg, s1) => (Panic msg, s1)
      end.
Proof.
  repeat case_bool_decide;
    [unfold Create; by rewrite bool_decide_eq_true_2
    |unfold Create;
     by rewrite bool_decide_eq_false_2, bool_decide_eq_true_2|].
  destruct (createOvsInternalPort env (VethPrefix n) (Bridge n) s)
    as [[[name [e|]]|msg] s1] eqn:Hcreate.
  - unfold Create. rewrite !bool_decide_eq_false_2 by done.
    unfold mbind at 1, M_bind at 1. rewrite Hcreate.
    by rewrite bool_decide_eq_true_2.
  - by apply Create_run.
  - unfold Create. rewrite !bool_decide_eq_false_2 by done.
    unfold mbind at 1, M_bind at 1. by rewrite Hcreate.
Qed.

Lemma Create_vsctl_cases n nspid s :
  Create_vsctl env n nspid s =
    if bool_decide (Bridge n = "") then (Ret (Some "bridge is not specified"), s)
    else if bool_decide (VethPrefix n = "") then
      (Ret (Some "veth prefix is not specified"), s)
    else
      match createOvsInternalPort_vsctl env (VethPrefix n) (Bridge n) s with
      | (Ret (name, Some e), s1) => (Ret (Some e), s1)
      | (Ret (name, None), s1) =>
          let run := fail_fast env (devlog s1) (attach_steps name (Mtu n) nspid) in
          (Ret run.2,
           mkStore (cache s1) (stdout s1) run.1
             (if run.2 is None then mkNetworkState name else networkState s1))
      | (Panic msg, s1) => (Panic msg, s1)
      end.
Proof.
  repeat case_bool_decide;
    [unfold Create_vsctl; by rewrite bool_decide_eq_true_2
    |unfold Create_vsctl;
     by rewrite bool_decide_eq_false_2, bool_decide_eq_true_2|].
  destruct (createOvsInternalPort_vsctl env (VethPrefix n) (Bridge n) s)
    as [[[name [e|]]|msg] s1] eqn:Hcreate.
  - unfold Create_vsctl. rewrite !bool_decide_eq_false_2 by done.
    unfold mbind at 1, M_bind at 1. rewrite Hcreate.
    by rewrite bool_decide_eq_true_2.
  - by apply Create_vsctl_run.
  - unfold Create_vsctl. rewrite !bool_decide_eq_false_2 by done.
    unfold mbind at 1, M_bind at 1. by rewrite Hcreate.
Qed.

(** X9: [createOvsInternalPort] of ovs.go panics exactly when a name was
    generated, the connection succeeded, and either [MonitorAll] yielded
    nil or the reply to the transaction has fewer than two entries, none of
    them carrying an error.  The [createOvsInternalPort] that runs
    ovs-vsctl never panics and leaves the store as it is. *)
Theorem createOvsInternalPort_panics (prefix bridge : string) (s : Store) :
  ((∃ msg, (createOvsInternalPort env prefix bridge s).1 = Panic msg) ↔
   ∃ gen ovs,
     rand_Reader env = inr gen ∧ libovsdb_Connect env = inl ovs ∧
     let name := prefix +:+ String.string_of_list_ascii (gen <$> seq 0 7) in
     let reply := Transact ovs "Open_vSwitch"
                    [insertIntfOp name; insertPortOp name; mutateOp bridge] in
     (MonitorAll ovs "Open_vSwitch" = None ∨
      (Forall (λ o, Error o = "") reply ∧ (length reply < 2)%nat))) ∧
  (∃ r, createOvsInternalPort_vsctl env prefix bridge s = (Ret r, s)).
Proof.
  split.
  - rewrite createOvsInternalPort_run.
    destruct (rand_Reader env) as [e|gen].
    { split; [by intros [? [=]]|]. by intros (? & ? & [=] & _). }
    cbv zeta. destruct (libovsdb_Connect env) as [ovs|err].
    2: { split; [by intros [? [=]]|]. by intros (? & ? & _ & [=] & _). }
    destruct (MonitorAll ovs "Open_vSwitch") as [initial|] eqn:Hmon.
    2: { split; [|by eexists]. intros _. exists gen, ovs.
         split; [done|]. split; [done|]. cbv zeta. by left. }
    rewrite addInternalPort_output. cbv zeta.
    set (name := prefix +:+ String.string_of_list_ascii (gen <$> seq 0 7)).
    set (reply := Transact ovs "Open_vSwitch" _).
    destruct (forallb (λ o, bool_decide (Error o = "")) reply) eqn:Hall.
    + apply forallb_no_error in Hall.
      destruct (reply !! 1%nat) as [r|] eqn:Hr.
      * apply lookup_lt_Some in Hr. split; [by intros [? [=]]|].
        intros (gen' & ovs' & [= <-] & [= <-] & [?|[_ Hlen]]); [congruence|].
        fold name in Hlen. fold reply in Hlen. lia.
      * apply lookup_ge_None in Hr. split; [|by eexists]. intros _.
        exists gen, ovs. split; [done|]. split; [done|]. cbv zeta. right.
        fold name. fold reply. split; [done|lia].
    + split; [by intros [? [=]]|].
      intros (gen' & ovs' & [= <-] & [= <-] & [?|[Hno _]]); [congruence|].
      fold name in Hno. fold reply in Hno. apply forallb_no_error in Hno. congruence.
  - rewrite createOvsInternalPort_vsctl_run.
    destruct (rand_Reader env); by eexists.
Qed.

(** X10: when the connection to the database fails, [createOvsInternalPort]
    of ovs.go returns the generated name together with that error, having
    emptied the cache and printed nothing, and [Create] returns the error
    without any interface operation. *)
Theorem Create_connection_failure (n : Network) (nspid : Z) (s : Store)
    (gen : nat → Ascii.ascii) (err : error) :
  Bridge n ≠ "" → VethPrefix n ≠ "" →
  rand_Reader env = inr gen → libovsdb_Connect env = inr err →
  let s0 := mkStore ∅ (stdout s) (devlog s) (networkState s) in
  createOvsInternalPort env (VethPrefix n) (Bridge n) s =
    (Ret (VethPrefix n +:+ String.string_of_list_ascii (gen <$> seq 0 7), Some err), s0) ∧
  Create env n nspid s = (Ret (Some err), s0).
Proof.
  intros Hbridge Hprefix Hrand Hconn s0.
  assert (createOvsInternalPort env (VethPrefix n) (Bridge n) s =
    (Ret (VethPrefix n +:+ String.string_of_list_ascii (gen <$> seq 0 7), Some err), s0))
    as Hcreate by (by rewrite createOvsInternalPort_run, Hrand, Hconn).
  split; [exact Hcreate|].
  rewrite Create_cases, !bool_decide_eq_false_2 by done. by rewrite Hcreate.
Qed.




(** X12: when the ovs-vsctl command fails, [createOvsInternalPort] returns
    the generated name together with an error that tells the name, the
    bridge and the error of the command, and [Create] returns that error
    without any interface operation; the store is the one given. *)
Theorem Create_vsctl_command_failure (n : Network) (nspid : Z) (s : Store)
    (gen : nat → Ascii.ascii) (err : error) :
  Bridge n ≠ "" → VethPrefix n ≠ "" →
  rand_Reader env = inr gen →
  let name := VethPrefix n +:+ String.string_of_list_ascii (gen <$> seq 0 7) in
  exec_Run env ["ovs-vsctl"; "add-port"; Bridge n; name; "--"; "set"; "Interface"; name;
                "type=internal"] = Some err →
  ∃ msg,
    createOvsInternalPort_vsctl env (VethPrefix n) (Bridge n) s = (Ret (name, Some msg), s) ∧
    Create_vsctl env n nspid s = (Ret (Some msg), s) ∧
    contains name msg = true ∧ contains (Bridge n) msg = true ∧ contains err msg = true.
Proof.
  intros Hbridge Hprefix Hrand name Hrun.
  assert (createOvsInternalPort_vsctl env (VethPrefix n) (Bridge n) s =
            (Ret (name, Some ("create ovs port " +:+ name +:+ " on " +:+ Bridge n
                                +:+ " failed with " +:+ err)), s)) as Hcreate.
  { rewrite createOvsInternalPort_vsctl_run, Hrand. cbv zeta. fold name. by rewrite Hrun. }
  eexists. split; [exact Hcreate|]. split.
  - rewrite Create_vsctl_cases, !bool_decide_eq_false_2 by done. by rewrite Hcreate.
  - split_and!; find_piece.
Qed.

Lemma attach_nil name mtu nspid log :
  (fail_fast env log (attach_steps name mtu nspid)).2 = None →
  (fail_fast env log (attach_steps name mtu nspid)).1 =
    log ++ [DevSetMtu name mtu; DevInterfaceUp name;
            DevSetInterfaceInNamespacePid name nspid] ∧
  netlink env log (DevSetMtu name mtu) = None ∧
  netlink env (log ++ [DevSetMtu name mtu]) (DevInterfaceUp name) = None ∧
  netlink env (log ++ [DevSetMtu name mtu; DevInterfaceUp name])
    (DevSetInterfaceInNamespacePid name nspid) = None.
Proof.
  unfold attach_steps. simpl.
  destruct (netlink env log (DevSetMtu name mtu)) eqn:H1; simpl; [done|].
  destruct (netlink env (log ++ [DevSetMtu name mtu]) (DevInterfaceUp name)) eqn:H2;
    simpl; [done|].
  rewrite <- (app_assoc log [_] [_]) in *. simpl in *.
  destruct (netlink env _ (DevSetInterfaceInNamespacePid name nspid)) eqn:H3;
    simpl; [done|].
  intros _. split_and!; try done. by rewrite <- app_assoc.
Qed.

Lemma attach_result name mtu nspid s1 s' :
  (let run := fail_fast env (devlog s1) (attach_steps name mtu nspid) in
   (Ret run.2,
    mkStore (cache s1) (stdout s1) run.1
      (if run.2 is None then mkNetworkState name else networkState s1)))
  = (Ret None, s') →
  networkState s' = mkNetworkState name ∧
  devlog s' = devlog s1 ++ [DevSetMtu name mtu; DevInterfaceUp name;
                            DevSetInterfaceInNamespacePid name nspid] ∧
  netlink env (devlog s1) (DevSetMtu name mtu) = None ∧
  netlink env (devlog s1 ++ [DevSetMtu name mtu]) (DevInterfaceUp name) = None ∧
  netlink env (devlog s1 ++ [DevSetMtu name mtu; DevInterfaceUp name])
    (DevSetInterfaceInNamespacePid name nspid) = None.
Proof.
  cbv zeta. pose proof (attach_nil name mtu nspid (devlog s1)) as Hnil. revert Hnil.
  generalize (fail_fast env (devlog s1) (attach_steps name mtu nspid)).
  intros [log [e|]] Hnil; [done|]. intros [= <-].
  destruct (Hnil eq_refl) as (Hl & ? & ? & ?). simpl in *. by subst.
Qed.

(** What a [nil] from either [Create] tells. *)
Lemma Create_nil_inv n nspid s s' :
  Create env n nspid s = (Ret None, s') ∨ Create_vsctl env n nspid s = (Ret None, s') →
  Bridge n ≠ "" ∧ VethPrefix n ≠ "" ∧
  ∃ name suffix,
    name = VethPrefix n +:+ suffix ∧
    networkState s' = mkNetworkState name ∧
    devlog s' = devlog s ++ [DevSetMtu name (Mtu n); DevInterfaceUp name;
                             DevSetInterfaceInNamespacePid name nspid] ∧
    netlink env (devlog s) (DevSetMtu name (Mtu n)) = None ∧
    netlink env (devlog s ++ [DevSetMtu name (Mtu n)]) (DevInterfaceUp name) = None ∧
    netlink env (devlog s ++ [DevSetMtu name (Mtu n); DevInterfaceUp name])
      (DevSetInterfaceInNamespacePid name nspid) = None.
Proof.
  intros [Hrun|Hrun].
  - rewrite Create_cases in Hrun.
    case_bool_decide as Hb; [done|]. case_bool_decide as Hp; [done|].
    destruct (createOvsInternalPort env (VethPrefix n) (Bridge n) s)
      as [[[name [e|]]|msg] s1] eqn:Hcreate; [done| |done].
    apply createOvsInternalPort_returns in Hcreate as (Hname & Hlog & Hns).
    apply attach_result in Hrun as (? & ? & ? & ? & ?).
    rewrite Hlog in *. split_and!; try done.
    destruct (rand_Reader env) as [?|gen]; [done|]. injection Hname as -> _.
    eexists _, _. by split_and!.
  - rewrite Create_vsctl_cases in Hrun.
    case_bool_decide as Hb; [done|]. case_bool_decide as Hp; [done|].
    destruct (createOvsInternalPort_vsctl env (VethPrefix n) (Bridge n) s)
      as [[[name [e|]]|msg] s1] eqn:Hcreate; [done| |done].
    apply createOvsInternalPort_vsctl_returns in Hcreate as ((suffix & Hname) & ->).
    destruct (Hname eq_refl) as [-> _].
    apply attach_result in Hrun as (? & ? & ? & ? & ?).
    split_and!; try done. eexists _, _. by split_and!.
Qed.

(** X13: either [Create] returns [nil] only if bridge name and prefix were
    given, the three interface operations on the created port were issued
    in order, set MTU, up, move to the namespace of [nspid], and no other,
    each of them succeeded, and the port name was recorded. *)
Theorem Create_nil (n : Network) (nspid : Z) (s s' : Store) :
  Create env n nspid s = (Ret None, s') ∨ Create_vsctl env n nspid s = (Ret None, s') →
  Bridge n ≠ "" ∧ VethPrefix n ≠ "" ∧
  ∃ name,
    networkState s' = mkNetworkState name ∧
    devlog s' = devlog s ++ [DevSetMtu name (Mtu n); DevInterfaceUp name;
                             DevSetInterfaceInNamespacePid name nspid] ∧
    netlink env (devlog s) (DevSetMtu name (Mtu n)) = None ∧
    netlink env (devlog s ++ [DevSetMtu name (Mtu n)]) (DevInterfaceUp name) = None ∧
    netlink env (devlog s ++ [DevSetMtu name (Mtu n); DevInterfaceUp name])
      (DevSetInterfaceInNamespacePid name nspid) = None.
Proof.
  intros Hrun.
  destruct (Create_nil_inv n nspid s s' Hrun)
    as (Hb & Hp & name & suffix & _ & Hns & Hlog & H1 & H2 & H3).
  split_and!; [done..|]. exists name. by split_and!.
Qed.

(** X14: [Initialize] never panics and changes nothing but the interface
    log, to which it only adds; every operation it issues acts on the
    recorded port or on the default device. *)
Theorem Initialize_frame (config : Network) (s : Store) :
  ∃ err log,
    Initialize env config s =
      (Ret err, mkStore (cache s) (stdout s) (devlog s ++ log) (networkState s)) ∧
    ∀ op, op ∈ log →
      step_device op = OvsPort (networkState s) ∨ step_device op = defaultDevice env.
Proof.
  rewrite Initialize_run. case_bool_decide as Hport.
  - exists (Some "ovsPort is not specified"), []. rewrite app_nil_r.
    split; [by destruct s|]. by intros op ?%elem_of_nil.
  - cbv zeta.
    destruct (fail_fast_log env (devlog s)
                (finalize_steps (defaultDevice env) config (OvsPort (networkState s))))
      as (k & _ & -> & _).
    eexists _, _. split; [done|].
    intros op Hin%subseteq_take. rewrite finalize_steps_ops in Hin.
    repeat case_bool_decide;
      rewrite ?elem_of_app, ?elem_of_cons, ?elem_of_nil in Hin;
      destruct_or!; subst; simpl; auto; done.
Qed.

(** X15: after a [nil] from either [Create], [Initialize] does not stop on
    a missing port name: it goes on to take down the very port that
    [Create] configured and moved, whatever happens afterwards. *)
Theorem Initialize_after_Create (n : Network) (nspid : Z) (config : Network)
    (s s1 : Store) :
  Create env n nspid s = (Ret None, s1) ∨ Create_vsctl env n nspid s = (Ret None, s1) →
  ∃ name err s2 rest,
    OvsPort (networkState s1) = name ∧ name ≠ "" ∧
    Initialize env config s1 = (Ret err, s2) ∧
    devlog s2 =
      devlog s ++ [DevSetMtu name (Mtu n); DevInterfaceUp name;
                   DevSetInterfaceInNamespacePid name nspid; DevInterfaceDown name]
               ++ rest.
Proof.
  intros Hrun.
  destruct (Create_nil_inv n nspid s s1 Hrun)
    as (_ & Hp & name & suffix & Hname & Hns & Hlog & _).
  assert (name ≠ "") as Hne.
  { rewrite Hname. by destruct (VethPrefix n). }
  exists name. rewrite Initialize_run, Hns. cbn [OvsPort].
  rewrite bool_decide_eq_false_2 by done. cbv zeta.
  destruct (fail_fast_log env (devlog s1) (finalize_steps (defaultDevice env) config name))
    as (k & Hk & Hrunlog & Hnone & Hsome).
  assert (0 < k)%nat as Hpos.
  { destruct (fail_fast env (devlog s1) (finalize_steps (defaultDevice env) config name)).2
      as [msg|] eqn:Herr.
    - by destruct (Hsome msg eq_refl) as (? & ? & ? & _ & ? & _).
    - rewrite (Hnone eq_refl). unfold finalize_steps. simpl. lia. }
  eexists _, _, (take (k - 1) (tail (finalize_steps (defaultDevice env) config name).*1)).
  split_and!; [done..|]. cbn [devlog]. rewrite Hrunlog, Hlog.
  rewrite finalize_steps_ops. destruct k as [|k]; [lia|]. simpl.
  rewrite Nat.sub_0_r, <- app_assoc. simpl. reflexivity.
Qed.

End AttachmentFacts.

(** ** Further instances in the sample world *)

Lemma Create_connection_failure_witness :
  let world := mkEnv "eth0" (rand_Reader (sample_env [])) (inr "connection refused")
                 (λ _, None) (λ _ _, None) in
  Bridge sample_config ≠ "" ∧ VethPrefix sample_config ≠ "" ∧
  libovsdb_Connect world = inr "connection refused" ∧
  Create world sample_config 42 sample_store
    = (Ret (Some "connection refused"), sample_store).
Proof.
  intros world.
  assert (Bridge sample_config ≠ "") as Hbridge by (vm_compute; discriminate).
  assert (VethPrefix sample_config ≠ "") as Hprefix by (vm_compute; discriminate).
  assert (libovsdb_Connect world = inr "connection refused") as Hconn by reflexivity.
  split_and!; [done..|].
  exact (proj2 (Create_connection_failure world sample_config 42 sample_store _ _
                  Hbridge Hprefix eq_refl Hconn)).
Defined.

Lemma Create_vsctl_command_failure_witness :
  let world := mkEnv "eth0" (rand_Reader (sample_env [])) (inr "no server")
                 (λ _, Some "exit status 1") (λ _ _, None) in
  Bridge sample_config ≠ "" ∧ VethPrefix sample_config ≠ "" ∧
  ∃ msg,
    Create_vsctl world sample_config 42 sample_store = (Ret (Some msg), sample_store) ∧
    contains "br0" msg = true ∧ contains "exit status 1" msg = true.
Proof.
  intros world.
  assert (Bridge sample_config ≠ "") as Hbridge by (vm_compute; discriminate).
  assert (VethPrefix sample_config ≠ "") as Hprefix by (vm_compute; discriminate).
  split_and!; [done..|].
  destruct (Create_vsctl_command_failure world sample_config 42 sample_store _
              "exit status 1" Hbridge Hprefix eq_refl eq_refl)
    as (msg & _ & Hcreate & _ & Hb & He).
  exists msg. split_and!; [exact Hcreate|exact Hb|exact He].
Defined.

Lemma Create_nil_witness :
  let s' := mkStore ∅ []
              [DevSetMtu "veth1a2b3c4" 1500; DevInterfaceUp "veth1a2b3c4";
               DevSetInterfaceInNamespacePid "veth1a2b3c4" 42]
              (mkNetworkState "veth1a2b3c4") in
  Create_vsctl (sample_env []) sample_config 42 sample_store = (Ret None, s') ∧
  Bridge sample_config ≠ "" ∧ VethPrefix sample_config ≠ "".
Proof.
  intros s'.
  assert (Create_vsctl (sample_env []) sample_config 42 sample_store = (Ret None, s'))
    as Hrun by (vm_compute; reflexivity).
  split; [exact Hrun|].
  destruct (Create_nil (sample_env []) sample_config 42 sample_store s' (or_intror Hrun))
    as (Hbridge & Hprefix & _).
  split; [exact Hbridge|exact Hprefix].
Defined.

Lemma Initialize_after_Create_witness :
  let s1 := mkStore ∅ []
              [DevSetMtu "veth1a2b3c4" 1500; DevInterfaceUp "veth1a2b3c4";
               DevSetInterfaceInNamespacePid "veth1a2b3c4" 42]
              (mkNetworkState "veth1a2b3c4") in
  Create_vsctl (sample_env []) sample_config 42 sample_store = (Ret None, s1) ∧
  ∃ err s2 rest,
    Initialize (sample_env []) sample_config s1 = (Ret err, s2) ∧
    devlog s2 =
      [DevSetMtu "veth1a2b3c4" 1500; DevInterfaceUp "veth1a2b3c4";
       DevSetInterfaceInNamespacePid "veth1a2b3c4" 42; DevInterfaceDown "veth1a2b3c4"]
      ++ rest.
Proof.
  intros s1.
  assert (Create_vsctl (sample_env []) sample_config 42 sample_store = (Ret None, s1))
    as Hrun by (vm_compute; reflexivity).
  split; [exact Hrun|].
  destruct (Initialize_after_Create (sample_env []) sample_config 42 sample_config
              sample_store s1 (or_intror Hrun))
    as (name & err & s2 & rest & Hname & _ & Hinit & Hlog).
  exists err, s2, rest. split; [exact Hinit|].
  rewrite Hlog, <- Hname. reflexivity.
Defined.
